(** * Crafta Revenue Control Room: invoice approval front end

    A shallow embedding of the invoice detail page, the approval modal,
    the invoice queue and the exception centre, with the properties the
    specification states about approval, totals, confidence and exception
    kinds.

    Conventions of the embedding:
    - a JavaScript string is the list of its UTF-16 code units;
    - integer-valued numbers (quantities, prices, amounts) are [Z];
    - confidence scores are the exact rationals their decimal literals
      denote; the source only compares and displays them, and rounding a
      decimal literal to the nearest double is monotone, so every
      comparison between two literals used below has the same outcome on
      doubles and on rationals;
    - React state is threaded explicitly: a handler is a function from the
      state of the render that created it to the state of the next render. *)

From Stdlib Require Import QArith Qminmax ZArith Ascii String.
From stdpp Require Import gmap strings list.

(** ** JavaScript strings *)

Module JS.

Definition jsstring : Type := list N.

(** The code units of an ASCII literal of the source. *)
Definition lit (s : string) : jsstring :=
  (fun a : ascii => N_of_ascii a) <$> list_ascii_of_string s.

(** ECMAScript [WhiteSpace] and [LineTerminator] code points, the ones
    [String.prototype.trim] strips. *)
Definition white_space_code_units : list N :=
  [ 9; 10; 11; 12; 13; 32; 160; 5760;
    8192; 8193; 8194; 8195; 8196; 8197; 8198; 8199; 8200; 8201; 8202;
    8232; 8233; 8239; 8287; 12288; 65279 ]%N.

Definition is_white_space (c : N) : bool :=
  existsb (N.eqb c) white_space_code_units.

Fixpoint trimStart (s : jsstring) : jsstring :=
  match s with
  | [] => []
  | c :: s' => if is_white_space c then trimStart s' else s
  end.

Definition trimEnd (s : jsstring) : jsstring := rev (trimStart (rev s)).

(** [s.trim()] *)
Definition trim (s : jsstring) : jsstring := trimEnd (trimStart s).

(** [s.startsWith(p)] *)
Fixpoint startsWith (s p : jsstring) {struct p} : bool :=
  match p, s with
  | [], _ => true
  | _ :: _, [] => false
  | c :: p', d :: s' => N.eqb c d && startsWith s' p'
  end.

(** [s.includes(p)] *)
Fixpoint includes (s p : jsstring) : bool :=
  startsWith s p ||
  match s with
  | [] => false
  | _ :: s' => includes s' p
  end.

(** [s === t] on strings *)
Definition str_eqb (s t : jsstring) : bool := bool_decide (s = t).

(** Truthiness of a string: the empty string is the only falsy one. *)
Definition truthy (s : jsstring) : bool :=
  match s with [] => false | _ :: _ => true end.

End JS.

Import JS.

(** ** The invoice detail page (invoices/[id]/page.tsx) *)

Module InvoiceDetail.

Record InvoiceLine := {
  line_id : jsstring;
  description : jsstring;
  quantity : Z;
  unit : jsstring;
  unit_price : Z;
  amount : Z;
  source_clause_id : jsstring;
  source_event_ids : list jsstring;
  explain : jsstring;
  agent_reasoning : jsstring;
  confidence : Q;
  is_exception : bool;
  requires_cfo_approval : bool
}.

Record Invoice := {
  invoice_id : jsstring;
  contract_id : jsstring;
  drafted_by : jsstring;
  lines : list InvoiceLine;
  subtotal : Z;
  tax : Z;
  total : Z;
  status : jsstring;
  invoice_date : jsstring;
  due_date : jsstring;
  explainability : jsstring;
  aggregate_confidence : Q;
  created_at : jsstring
}.

Definition line_l1 : InvoiceLine := {|
  line_id := lit "l1";
  description := lit "Consulting hours Dec (10h @ $200)";
  quantity := 10;
  unit := lit "hour";
  unit_price := 200;
  amount := 2000;
  source_clause_id := lit "c1";
  source_event_ids := [lit "we_001"];
  explain := lit "Derived from timesheet event we_001";
  agent_reasoning :=
    lit "The contract clause c1 specifies a rate of $200/hour for consulting services. Work event we_001 records 10 hours of consulting on 2025-12-12. Multiplying 10 hours by $200/hour yields $2,000. This aligns with the pre-calculated amount in the work event.";
  confidence := 0.93;
  is_exception := false;
  requires_cfo_approval := false
|}.

(** The multiplication sign of the literal is the code unit U+00D7. *)
Definition line_l2 : InvoiceLine := {|
  line_id := lit "l2";
  description := lit "Additional consulting hours (5h @ $200)";
  quantity := 5;
  unit := lit "hour";
  unit_price := 200;
  amount := 1000;
  source_clause_id := lit "c1";
  source_event_ids := [lit "we_002"];
  explain := lit "Derived from timesheet event we_002";
  agent_reasoning :=
    lit "The contract clause c1 specifies a rate of $200/hour. Work event we_002 records 5 hours of additional consulting. Calculation: 5 hours "
      ++ [215%N] ++ lit " $200/hour = $1,000.";
  confidence := 0.91;
  is_exception := false;
  requires_cfo_approval := false
|}.

Definition line_l3 : InvoiceLine := {|
  line_id := lit "l3";
  description := lit "Milestone: Phase 1 Completion";
  quantity := 1;
  unit := lit "fixed";
  unit_price := 12000;
  amount := 12000;
  source_clause_id := lit "c2";
  source_event_ids := [lit "we_003"];
  explain := lit "Milestone payment triggered by completion event we_003";
  agent_reasoning :=
    lit "Contract clause c2 specifies a milestone payment of $12,000 upon completion of Phase 1. Work event we_003 indicates Phase 1 acceptance was completed. Manual verification of acceptance is recommended.";
  confidence := 0.88;
  is_exception := false;
  requires_cfo_approval := false
|}.

Definition sampleInvoice : Invoice := {|
  invoice_id := lit "inv_20260118_001";
  contract_id := lit "ctr_20260115_001";
  drafted_by := lit "agent_v0.1";
  lines := [line_l1; line_l2; line_l3];
  subtotal := 15000;
  tax := 0;
  total := 15000;
  status := lit "draft";
  invoice_date := lit "2026-01-18";
  due_date := lit "2026-02-17";
  explainability :=
    lit "Invoice derived from contract ctr_20260115_001 with 3 line(s). Used clauses: c1, c2. Linked work events: we_001, we_002, we_003. Aggregate confidence: 91%.";
  aggregate_confidence := 0.91;
  created_at := lit "2026-01-18T07:00:00Z"
|}.

(** [{ ...invoice, status: 'approved' }] *)
Definition with_status (invoice : Invoice) (s : jsstring) : Invoice := {|
  invoice_id := invoice_id invoice;
  contract_id := contract_id invoice;
  drafted_by := drafted_by invoice;
  lines := lines invoice;
  subtotal := subtotal invoice;
  tax := tax invoice;
  total := total invoice;
  status := s;
  invoice_date := invoice_date invoice;
  due_date := due_date invoice;
  explainability := explainability invoice;
  aggregate_confidence := aggregate_confidence invoice;
  created_at := created_at invoice
|}.

(** The page's two pieces of state. *)
Record PageState := {
  invoice : Invoice;
  showApprovalModal : bool
}.

Definition initialPage : PageState :=
  {| invoice := sampleInvoice; showApprovalModal := false |}.

(** [handleApprove]: the payload is only logged; the status is
    overwritten and the modal closed, whatever the current status. *)
Definition handleApprove {A : Type} (p : PageState) (approvalData : A) : PageState :=
  {| invoice := with_status (invoice p) (lit "approved");
     showApprovalModal := false |}.

(** The header shows the Approve button for a draft only, and the
    Push to ERP button for an approved invoice only. *)
Definition approveButtonShown (inv : Invoice) : bool :=
  str_eqb (status inv) (lit "draft").

Definition pushButtonShown (inv : Invoice) : bool :=
  str_eqb (status inv) (lit "approved").

(** [getConfidenceBadge] *)
Definition getConfidenceBadge (c : Q) : jsstring :=
  if Qle_bool 0.9 c then lit "bg-green-100 text-green-800 border-green-200"
  else if Qle_bool 0.8 c then lit "bg-yellow-100 text-yellow-800 border-yellow-200"
  else lit "bg-red-100 text-red-800 border-red-200".


Definition min_confidence (ls : list InvoiceLine) : option Q :=
  match ls with
  | [] => None
  | l :: ls' => Some (foldr (fun l' acc => Qmin (confidence l') acc) (confidence l) ls')
  end.

Definition max_confidence (ls : list InvoiceLine) : option Q :=
  match ls with
  | [] => None
  | l :: ls' => Some (foldr (fun l' acc => Qmax (confidence l') acc) (confidence l) ls')
  end.


End InvoiceDetail.

(** ** The approval modal (components/invoices/ApprovalModal.tsx) *)

Module ApprovalModal.

(** The component's own view of an invoice: the fields its interface
    declares.  The page passes its full invoice object; only these are
    read. *)
Record InvoiceLine := {
  line_id : jsstring;
  description : jsstring;
  amount : Z;
  confidence : Q;
  source_clause_id : jsstring;
  explain : jsstring
}.

Record Invoice := {
  invoice_id : jsstring;
  lines : list InvoiceLine;
  total : Z;
  aggregate_confidence : Q
}.

Definition of_page_line (l : InvoiceDetail.InvoiceLine) : InvoiceLine := {|
  line_id := InvoiceDetail.line_id l;
  description := InvoiceDetail.description l;
  amount := InvoiceDetail.amount l;
  confidence := InvoiceDetail.confidence l;
  source_clause_id := InvoiceDetail.source_clause_id l;
  explain := InvoiceDetail.explain l
|}.

Definition of_page_invoice (i : InvoiceDetail.Invoice) : Invoice := {|
  invoice_id := InvoiceDetail.invoice_id i;
  lines := of_page_line <$> InvoiceDetail.lines i;
  total := InvoiceDetail.total i;
  aggregate_confidence := InvoiceDetail.aggregate_confidence i
|}.

(** The six [useState] cells of the component. *)
Record ModalState := {
  reviewedLines : gset jsstring;
  approverName : jsstring;
  approverEmail : jsstring;
  approvalNote : jsstring;
  confirmReviewed : bool;
  error : jsstring
}.

Definition initialModal : ModalState := {|
  reviewedLines := ∅;
  approverName := [];
  approverEmail := [];
  approvalNote := [];
  confirmReviewed := false;
  error := []
|}.

Definition setReviewedLines (m : ModalState) (s : gset jsstring) : ModalState :=
  {| reviewedLines := s; approverName := approverName m;
     approverEmail := approverEmail m; approvalNote := approvalNote m;
     confirmReviewed := confirmReviewed m; error := error m |}.

Definition setApproverName (m : ModalState) (s : jsstring) : ModalState :=
  {| reviewedLines := reviewedLines m; approverName := s;
     approverEmail := approverEmail m; approvalNote := approvalNote m;
     confirmReviewed := confirmReviewed m; error := error m |}.

Definition setApproverEmail (m : ModalState) (s : jsstring) : ModalState :=
  {| reviewedLines := reviewedLines m; approverName := approverName m;
     approverEmail := s; approvalNote := approvalNote m;
     confirmReviewed := confirmReviewed m; error := error m |}.

Definition setApprovalNote (m : ModalState) (s : jsstring) : ModalState :=
  {| reviewedLines := reviewedLines m; approverName := approverName m;
     approverEmail := approverEmail m; approvalNote := s;
     confirmReviewed := confirmReviewed m; error := error m |}.

Definition setConfirmReviewed (m : ModalState) (b : bool) : ModalState :=
  {| reviewedLines := reviewedLines m; approverName := approverName m;
     approverEmail := approverEmail m; approvalNote := approvalNote m;
     confirmReviewed := b; error := error m |}.

Definition setError (m : ModalState) (s : jsstring) : ModalState :=
  {| reviewedLines := reviewedLines m; approverName := approverName m;
     approverEmail := approverEmail m; approvalNote := approvalNote m;
     confirmReviewed := confirmReviewed m; error := s |}.

(** The payload handed to [onApprove]. *)
Record ApprovalData := {
  approver_name : jsstring;
  approver_email : jsstring;
  approval_note : jsstring;
  confirm_reviewed : bool
}.

(** [invoice.lines.every((line) => reviewedLines.has(line.line_id))] *)
Definition allLinesReviewed (invoice : Invoice) (m : ModalState) : bool :=
  forallb (fun line => bool_decide (line_id line ∈ reviewedLines m)) (lines invoice).

(** [handleToggleLine]: a copy of the set with the id flipped. *)
Definition handleToggleLine (m : ModalState) (lineId : jsstring) : ModalState :=
  let newSet := reviewedLines m in
  setReviewedLines m
    (if bool_decide (lineId ∈ newSet) then newSet ∖ {[ lineId ]}
     else newSet ∪ {[ lineId ]}).

Definition msg_name : jsstring := lit "Please enter your name".
Definition msg_email : jsstring := lit "Please enter a valid email address".
Definition msg_lines : jsstring := lit "Please confirm you have reviewed all line items".
Definition msg_confirm : jsstring := lit "Please check the confirmation box".

(** [handleSubmit]: the next state of the modal and the payload passed
    to [onApprove], if it is called. *)
Definition handleSubmit (invoice : Invoice) (m : ModalState)
  : ModalState * option ApprovalData :=
  let m := setError m [] in
  if negb (truthy (trim (approverName m))) then
    (setError m msg_name, None)
  else if negb (truthy (trim (approverEmail m)))
          || negb (includes (approverEmail m) (lit "@")) then
    (setError m msg_email, None)
  else if negb (allLinesReviewed invoice m) then
    (setError m msg_lines, None)
  else if negb (confirmReviewed m) then
    (setError m msg_confirm, None)
  else
    (m, Some {| approver_name := approverName m;
                approver_email := approverEmail m;
                approval_note := approvalNote m;
                confirm_reviewed := true |}).

(** The footer button is [disabled] unless this holds. *)
Definition submitEnabled (invoice : Invoice) (m : ModalState) : bool :=
  allLinesReviewed invoice m && confirmReviewed m.

(** The ids of the lines not in the reviewed set, in invoice order. *)
Definition unreviewed_ids (invoice : Invoice) (m : ModalState) : list jsstring :=
  line_id <$> filter (fun line => line_id line ∉ reviewedLines m) (lines invoice).


(** The modal opened on the sample invoice, and two states of its form:
    everything filled in, and the same with only the first line ticked. *)
Definition sampleProps : Invoice := of_page_invoice InvoiceDetail.sampleInvoice.

Definition filled_form : ModalState := {|
  reviewedLines := {[ lit "l1" ]} ∪ {[ lit "l2" ]} ∪ {[ lit "l3" ]};
  approverName := lit "Jane Doe";
  approverEmail := lit "controller@company.com";
  approvalNote := [];
  confirmReviewed := true;
  error := []
|}.

Definition partly_reviewed_form : ModalState :=
  setReviewedLines filled_form {[ lit "l1" ]}.

End ApprovalModal.

(** ** The page and its modal as one transition system *)

Module App.

Import InvoiceDetail.

Record AppState := {
  page : PageState;
  modal : ApprovalModal.ModalState
}.

Definition initial : AppState :=
  {| page := initialPage; modal := ApprovalModal.initialModal |}.

(** What the user can do.  The modal's controls exist while the modal is
    shown; its state lives in the always-mounted component and survives
    closing. *)
Inductive Event :=
| ClickApprove
| CloseModal
| ToggleLine (lineId : jsstring)
| TypeName (s : jsstring)
| TypeEmail (s : jsstring)
| TypeNote (s : jsstring)
| SetConfirm (b : bool)
| ClickSubmit.

Definition modalInvoice (s : AppState) : ApprovalModal.Invoice :=
  ApprovalModal.of_page_invoice (invoice (page s)).

Definition with_modal (s : AppState) (m : ApprovalModal.ModalState) : AppState :=
  {| page := page s; modal := m |}.

Definition with_show (s : AppState) (b : bool) : AppState :=
  {| page := {| invoice := invoice (page s); showApprovalModal := b |};
     modal := modal s |}.

(** One user action; [None] when the control is not rendered or is
    disabled. *)
Definition step (s : AppState) (e : Event) : option AppState :=
  match e with
  | ClickApprove =>
      if approveButtonShown (invoice (page s)) then Some (with_show s true) else None
  | CloseModal =>
      if showApprovalModal (page s) then Some (with_show s false) else None
  | ToggleLine lineId =>
      if showApprovalModal (page s)
         && bool_decide (lineId ∈ ApprovalModal.line_id <$> ApprovalModal.lines (modalInvoice s))
      then Some (with_modal s (ApprovalModal.handleToggleLine (modal s) lineId))
      else None
  | TypeName x =>
      if showApprovalModal (page s)
      then Some (with_modal s (ApprovalModal.setApproverName (modal s) x)) else None
  | TypeEmail x =>
      if showApprovalModal (page s)
      then Some (with_modal s (ApprovalModal.setApproverEmail (modal s) x)) else None
  | TypeNote x =>
      if showApprovalModal (page s)
      then Some (with_modal s (ApprovalModal.setApprovalNote (modal s) x)) else None
  | SetConfirm b =>
      if showApprovalModal (page s)
      then Some (with_modal s (ApprovalModal.setConfirmReviewed (modal s) b)) else None
  | ClickSubmit =>
      if showApprovalModal (page s)
         && ApprovalModal.submitEnabled (modalInvoice s) (modal s)
      then
        match ApprovalModal.handleSubmit (modalInvoice s) (modal s) with
        | (m', None) => Some (with_modal s m')
        | (m', Some data) => Some {| page := handleApprove (page s) data; modal := m' |}
        end
      else None
  end.

Fixpoint run (s : AppState) (es : list Event) : option AppState :=
  match es with
  | [] => Some s
  | e :: es' =>
      match step s e with
      | Some s' => run s' es'
      | None => None
      end
  end.

Inductive reachable : AppState -> Prop :=
| reach_initial : reachable initial
| reach_step s e s' : reachable s -> step s e = Some s' -> reachable s'.

(** An approval session on the sample invoice: the form is opened and
    filled in, then submitted. *)
Definition fill_in_form : list Event :=
  [ ClickApprove;
    TypeName (lit "Jane Doe");
    TypeEmail (lit "controller@company.com");
    ToggleLine (lit "l1"); ToggleLine (lit "l2"); ToggleLine (lit "l3");
    SetConfirm true ].

Definition approval_session : list Event := fill_in_form ++ [ClickSubmit].

(** The state the session is in just before the submit click. *)
Definition ready_to_submit : AppState :=
  {| page := {| invoice := sampleInvoice; showApprovalModal := true |};
     modal := ApprovalModal.filled_form |}.

End App.

(** ** The exception centre (app/exceptions/page.tsx) *)

Module Exceptions.

(** A property of an object literal: missing, [null], or a value. *)
Inductive property (A : Type) :=
| absent
| null
| value (a : A).
Arguments absent {A}.
Arguments null {A}.
Arguments value {A} a.

Module Comment.
Record t := {
  id : jsstring;
  author : jsstring;
  text : jsstring;
  createdAt : jsstring
}.
End Comment.

Record Exception := {
  id : jsstring;
  invoiceId : jsstring;
  lineId : jsstring;
  type : jsstring;
  description : jsstring;
  amount : Z;
  confidence : Q;
  reason : jsstring;
  contractClause : jsstring;
  status : jsstring;
  createdAt : jsstring;
  assignedTo : property jsstring;
  comments : list Comment.t;
  resolvedAt : property jsstring;
  resolvedBy : property jsstring;
  resolution : property jsstring
}.

Definition exc_001 : Exception := {|
  id := lit "exc_001";
  invoiceId := lit "inv_20260117_002";
  lineId := lit "l3";
  type := lit "low_confidence";
  description := lit "Milestone payment - Phase 2 Completion";
  amount := 15000;
  confidence := 0.72;
  reason := lit "Confidence 72% below threshold 80%";
  contractClause := lit "c3";
  status := lit "pending";
  createdAt := lit "2026-01-17T10:00:00Z";
  assignedTo := null;
  comments := [];
  resolvedAt := absent;
  resolvedBy := absent;
  resolution := absent
|}.

Definition exc_002 : Exception := {|
  id := lit "exc_002";
  invoiceId := lit "inv_20260116_003";
  lineId := lit "l5";
  type := lit "cfo_required";
  description := lit "Revenue recognition - Multi-element arrangement";
  amount := 45000;
  confidence := 0.89;
  reason := lit "Rev-rec sensitive item requires CFO approval";
  contractClause := lit "c7";
  status := lit "pending";
  createdAt := lit "2026-01-16T14:30:00Z";
  assignedTo := value (lit "cfo@example.com");
  comments :=
    [ {| Comment.id := lit "cmt_001";
         Comment.author := lit "controller@example.com";
         Comment.text := lit "Flagged for CFO review due to multi-element arrangement.";
         Comment.createdAt := lit "2026-01-16T15:00:00Z" |} ];
  resolvedAt := absent;
  resolvedBy := absent;
  resolution := absent
|}.

Definition exc_003 : Exception := {|
  id := lit "exc_003";
  invoiceId := lit "inv_20260115_004";
  lineId := lit "l2";
  type := lit "manual_review";
  description := lit "Rate discrepancy - Consulting hours";
  amount := 2400;
  confidence := 0.65;
  reason := lit "Extracted rate ($240/hr) differs from expected ($200/hr)";
  contractClause := lit "c1";
  status := lit "resolved";
  createdAt := lit "2026-01-15T09:00:00Z";
  assignedTo := absent;
  comments := [];
  resolvedAt := value (lit "2026-01-15T11:30:00Z");
  resolvedBy := value (lit "controller@example.com");
  resolution := value (lit "Rate confirmed as $240/hr per amendment dated 2025-11-01")
|}.

Definition exceptions : list Exception := [exc_001; exc_002; exc_003].

Record TypeInfo := { label : jsstring; color : jsstring }.

(** The table of exception kinds the page knows. *)
Definition typeConfig : gmap jsstring TypeInfo :=
  list_to_map
    [ (lit "low_confidence", {| label := lit "Low Confidence"; color := lit "red" |});
      (lit "cfo_required", {| label := lit "CFO Required"; color := lit "yellow" |});
      (lit "manual_review", {| label := lit "Manual Review"; color := lit "orange" |});
      (lit "missing_data", {| label := lit "Missing Data"; color := lit "gray" |}) ].

(** The badge of one exception card: [typeConfig[exception.type]]
    followed by [type.label]; a kind outside the table yields
    [undefined], and reading its [label] throws. *)
Definition typeBadge (e : Exception) : option jsstring :=
  label <$> typeConfig !! type e.

Inductive StatusFilter := all | pending | resolved.

Definition filteredExceptions (statusFilter : StatusFilter) : list Exception :=
  List.filter (fun exc =>
                 match statusFilter with
                 | all => true
                 | pending => str_eqb (status exc) (lit "pending")
                 | resolved => str_eqb (status exc) (lit "resolved")
                 end) exceptions.

Definition pendingCount : nat :=
  length (List.filter (fun e => str_eqb (status e) (lit "pending")) exceptions).

(** The page paints the confidence red below this bound; the reason
    text of [exc_001] names the same threshold. *)
Definition below_threshold (e : Exception) : bool :=
  negb (Qle_bool 0.8 (confidence e)).

Definition has_type (k : string) (e : Exception) : bool :=
  str_eqb (type e) (lit k).

End Exceptions.

(** ** The invoice queue (app/invoices/page.tsx) *)

Module Invoices.

Import Exceptions (property, absent, null, value).

Record InvoiceSummary := {
  id : jsstring;
  contractId : jsstring;
  contractName : jsstring;
  status : jsstring;
  linesCount : Z;
  subtotal : Z;
  tax : Z;
  total : Z;
  confidence : Q;
  invoiceDate : jsstring;
  dueDate : jsstring;
  hasExceptions : bool;
  requiresCfo : bool;
  approvedBy : property jsstring;
  approvedAt : property jsstring;
  erpInvoiceId : property jsstring
}.

Definition invoices : list InvoiceSummary :=
  [ {| id := lit "inv_20260118_001"; contractId := lit "ctr_20260115_001";
       contractName := lit "MSA-ACME Services"; status := lit "draft";
       linesCount := 3; subtotal := 15000; tax := 0; total := 15000;
       confidence := 0.93;
       invoiceDate := lit "2026-01-18"; dueDate := lit "2026-02-17";
       hasExceptions := false; requiresCfo := false;
       approvedBy := absent; approvedAt := absent; erpInvoiceId := absent |};
    {| id := lit "inv_20260117_002"; contractId := lit "ctr_20260110_002";
       contractName := lit "TechCorp Consulting"; status := lit "exception";
       linesCount := 5; subtotal := 8500; tax := 0; total := 8500;
       confidence := 0.72;
       invoiceDate := lit "2026-01-17"; dueDate := lit "2026-02-16";
       hasExceptions := true; requiresCfo := false;
       approvedBy := absent; approvedAt := absent; erpInvoiceId := absent |};
    {| id := lit "inv_20260115_003"; contractId := lit "ctr_20260108_003";
       contractName := lit "BlueCo Implementation"; status := lit "approved";
       linesCount := 8; subtotal := 45000; tax := 4500; total := 49500;
       confidence := 0.97;
       invoiceDate := lit "2026-01-15"; dueDate := lit "2026-02-14";
       hasExceptions := false; requiresCfo := true;
       approvedBy := value (lit "Jane Doe");
       approvedAt := value (lit "2026-01-16T09:00:00Z");
       erpInvoiceId := absent |};
    {| id := lit "inv_20260110_004"; contractId := lit "ctr_20260105_004";
       contractName := lit "Monthly Retainer - Alpha"; status := lit "pushed";
       linesCount := 2; subtotal := 5000; tax := 0; total := 5000;
       confidence := 0.99;
       invoiceDate := lit "2026-01-10"; dueDate := lit "2026-02-09";
       hasExceptions := false; requiresCfo := false;
       approvedBy := absent; approvedAt := absent;
       erpInvoiceId := value (lit "QB-20260110-001") |} ].

(** The keys of [statusConfig]: the lifecycle statuses the queue can
    display. *)
Definition statusConfig_keys : list jsstring :=
  [ lit "draft"; lit "pending_review"; lit "exception";
    lit "approved"; lit "pushed"; lit "rejected" ].

End Invoices.

(** ** The Derivation Engine and the Exception Router

    The front end only displays derived invoices; the engine that derives
    them is the agent pipeline's [derive_invoice_lines], outside the front
    end.  Its matching and amount rules are modelled below, with the
    exception kinds as the specification names them. *)

Module Derivation.

(** Modelled from the spec: the billing basis of a clause (missing: the
    engine's data model); a fixed milestone carries its amount. *)
Inductive BillingBasis :=
| time_and_materials
| fixed_milestone (milestone_amount : Z)
| recurring_retainer.

(** Modelled from the spec: a billing clause, with the extraction
    confidence the parsing collaborator supplies and the mark of a
    policy-sensitive category (missing: the engine's data model).  Dates
    are day numbers. *)
Record Clause := {
  clause_id : jsstring;
  basis : BillingBasis;
  trigger : jsstring;
  unit_price : Z;
  effective_from : Z;
  effective_to : Z;
  extraction_confidence : Q;
  policy_sensitive : bool
}.

(** Modelled from the spec: a normalized work event (missing: the
    engine's data model). *)
Record WorkEvent := {
  event_id : jsstring;
  date : Z;
  units : Z;
  unit_type : jsstring;
  external_ref : jsstring
}.

(** Modelled from the spec: a derived invoice line with the exception
    kind the engine sets, if any (missing: the engine's data model). *)
Record Line := {
  quantity : Z;
  line_unit_price : Z;
  amount : Z;
  source_clause_id : option jsstring;
  source_event_ids : list jsstring;
  confidence : Q;
  is_exception : bool;
  kind : option jsstring;
  requires_elevated_approval : bool
}.

(** Modelled from the spec: a derived draft, reduced to its lines and
    lifecycle status (missing: the engine's data model). *)
Record InvoiceDraft := {
  lines : list Line;
  status : jsstring
}.

(** Modelled from the spec: the one failure of derivation (missing: the
    engine's source). *)
Inductive DeriveError := NoBillingTermsError.

(** Modelled from the spec: the two kinds the engine sets itself
    (missing: the engine's source). *)
Definition kind_data_missing : jsstring := lit "data-missing".
Definition kind_manual_review : jsstring := lit "manual_review".

(** Modelled from the spec: the router's default threshold (missing: the
    router's source); the exception centre uses the same bound. *)
Definition CONFIDENCE_THRESHOLD : Q := 0.80.

Section Engine.

(** What the specification leaves to the implementer: when a trigger
    condition matches an event type, how specific a trigger is, and
    the confidence formula (extraction confidence, ambiguity). *)
Variable trigger_matches : jsstring -> jsstring -> bool.
Variable specificity : jsstring -> nat.
Variable line_confidence : Q -> bool -> Q.

(** Modelled from the spec: the clause matching of the Derivation
    Engine (missing: the engine's source).  A clause matches an event
    when its trigger condition matches the event's type and its
    effective date range contains the event date. *)
Definition matches (e : WorkEvent) (c : Clause) : bool :=
  trigger_matches (trigger c) (unit_type e)
  && (effective_from c <=? date e)%Z && (date e <=? effective_to c)%Z.

(** Modelled from the spec: the amount of a line with a matched clause
    (missing: the engine's source).  Quantity times unit price, or the
    clause's fixed milestone amount, ignoring quantity. *)
Definition line_amount (c : Clause) (e : WorkEvent) : Z :=
  match basis c with
  | fixed_milestone milestone_amount => milestone_amount
  | time_and_materials | recurring_retainer => (units e * unit_price c)%Z
  end.

(** Modelled from the spec: the choice among several matching clauses
    (missing: the engine's source).  The most specific trigger wins,
    ties go to the latest effective start date. *)
Definition preferred (c d : Clause) : bool :=
  (specificity (trigger d) <? specificity (trigger c))%nat
  || ((specificity (trigger c) =? specificity (trigger d))%nat
      && (effective_from d <? effective_from c)%Z).

(** Modelled from the spec: the preferred clause of a non-empty list of
    matches (missing: the engine's source); the earlier clause stays on
    a full tie. *)
Definition pick (c : Clause) (cs : list Clause) : Clause :=
  foldl (fun best d => if preferred d best then d else best) c cs.

(** Modelled from the spec: the line for an event and the clause
    chosen for it (missing: the engine's source); an ambiguous choice
    is flagged for manual review. *)
Definition matched_line (c : Clause) (e : WorkEvent) (ambiguous : bool) : Line := {|
  quantity := units e;
  line_unit_price := unit_price c;
  amount := line_amount c e;
  source_clause_id := Some (clause_id c);
  source_event_ids := [event_id e];
  confidence := line_confidence (extraction_confidence c) ambiguous;
  is_exception := ambiguous;
  kind := if ambiguous then Some kind_manual_review else None;
  requires_elevated_approval := policy_sensitive c
|}.

(** Modelled from the spec: the line derived for one work event
    (missing: the engine's source).  One match gives an ordinary line,
    none gives an exception line of kind [data-missing], several give
    the preferred clause's line flagged for manual review.  The
    specification fixes only the flag and the kind of the no-match
    line; its amounts and confidence are set to zero here. *)
Definition derive_line (clauses : list Clause) (e : WorkEvent) : Line :=
  match List.filter (matches e) clauses with
  | [] =>
      {| quantity := units e;
         line_unit_price := 0;
         amount := 0;
         source_clause_id := None;
         source_event_ids := [event_id e];
         confidence := 0;
         is_exception := true;
         kind := Some kind_data_missing;
         requires_elevated_approval := false |}
  | [c] => matched_line c e false
  | c :: cs => matched_line (pick c cs) e true
  end.

(** Modelled from the spec: the Exception Router's test for a line
    that needs an exception record (missing: the router's source). *)
Definition flagged (l : Line) : bool :=
  is_exception l
  || negb (Qle_bool CONFIDENCE_THRESHOLD (confidence l))
  || requires_elevated_approval l.

(** Modelled from the spec: the status a fresh draft moves to once the
    router has looked at it (missing: the state machine's source):
    [exception] if anything is flagged, [pending_review] otherwise. *)
Definition routed_status (ls : list Line) : jsstring :=
  if existsb flagged ls then lit "exception" else lit "pending_review".

(** Modelled from the spec: [deriveInvoice] followed by routing
    (missing: the engine's source).  A contract without clauses is an
    error, not an empty invoice. *)
Definition deriveInvoice (clauses : list Clause) (events : list WorkEvent)
  : DeriveError + InvoiceDraft :=
  match clauses with
  | [] => inl NoBillingTermsError
  | _ :: _ =>
      let ls := derive_line clauses <$> events in
      inr {| lines := ls; status := routed_status ls |}
  end.

End Engine.

(** Scenario A of the specification: one time-and-materials clause at
    200 per hour, one event of 10 hours. *)
Definition clause_tm : Clause := {|
  clause_id := lit "c1";
  basis := time_and_materials;
  trigger := lit "hour";
  unit_price := 200;
  effective_from := 20250101;
  effective_to := 20261231;
  extraction_confidence := 0.93;
  policy_sensitive := false
|}.

Definition clause_milestone : Clause := {|
  clause_id := lit "c2";
  basis := fixed_milestone 12000;
  trigger := lit "fixed";
  unit_price := 12000;
  effective_from := 20250101;
  effective_to := 20261231;
  extraction_confidence := 0.88;
  policy_sensitive := false
|}.

Definition event_10h : WorkEvent := {|
  event_id := lit "we_001";
  date := 20251212;
  units := 10;
  unit_type := lit "hour";
  external_ref := []
|}.

(** The other two work events behind the sample invoice's lines. *)
Definition event_5h : WorkEvent := {|
  event_id := lit "we_002";
  date := 20251219;
  units := 5;
  unit_type := lit "hour";
  external_ref := []
|}.

Definition event_phase1 : WorkEvent := {|
  event_id := lit "we_003";
  date := 20251220;
  units := 1;
  unit_type := lit "fixed";
  external_ref := []
|}.

(** Scenario B: an event whose type no clause is triggered by. *)
Definition event_expense : WorkEvent := {|
  event_id := lit "we_009";
  date := 20251212;
  units := 1;
  unit_type := lit "expense";
  external_ref := []
|}.

(** The simplest instance of the open parameters: a trigger matches the
    event type it names, all triggers are equally specific, and the
    confidence is the extraction confidence, halved when ambiguous. *)
Definition exact_trigger (t u : jsstring) : bool := str_eqb t u.
Definition flat_specificity (t : jsstring) : nat := 0.
Definition plain_confidence (c : Q) (ambiguous : bool) : Q :=
  if ambiguous then (c / 2)%Q else c.

Definition derive_exact : list Clause -> WorkEvent -> Line :=
  derive_line exact_trigger flat_specificity plain_confidence.

Definition deriveInvoice_exact
  : list Clause -> list WorkEvent -> DeriveError + InvoiceDraft :=
  deriveInvoice exact_trigger flat_specificity plain_confidence.

End Derivation.

(** ** The Exception Router's routing rule

    The exception centre only lists exception records; what creates them
    is outside the front end. *)

Module Router.

Import Derivation.

(** Modelled from the spec: the two reviewers the routing rule names
    (missing: the router's source). *)
Inductive Reviewer := Controller | CFO_approver.

(** Modelled from the spec: an exception record as the router creates
    it, with the line it flags, its kind, the reviewer it is assigned to
    and its status (missing: the router's source). *)
Record ExceptionRecord := {
  flagged_line : Line;
  exception_kind : option jsstring;
  assigned_reviewer : Reviewer;
  exception_status : jsstring
}.

(** Modelled from the spec: the two kinds the router sets (missing: the
    router's source). *)
Definition kind_low_confidence : jsstring := lit "low_confidence".
Definition kind_cfo_required : jsstring := lit "cfo_required".

Section Rule.

(** The routing rule has three cases that can overlap.  Its words settle
    two of the overlaps: the policy flag decides regardless of
    confidence, and a line the engine has flagged keeps the engine's
    kind.  For a line that is both flagged by the engine and in need of
    elevated approval they settle nothing; [policy_flag_first] says which
    of the two cases is taken there. *)
Variable policy_flag_first : bool.

(** Modelled from the spec: the record for a line routed by the policy
    flag (missing: the router's source): kind [cfo_required], reviewer the
    designated CFO approver. *)
Definition by_policy (l : Line) : ExceptionRecord := {|
  flagged_line := l;
  exception_kind := Some kind_cfo_required;
  assigned_reviewer := CFO_approver;
  exception_status := lit "pending"
|}.

(** Modelled from the spec: the record for a line the engine has flagged
    (missing: the router's source): the kind as set by the engine,
    reviewer the Controller. *)
Definition by_engine (l : Line) : ExceptionRecord := {|
  flagged_line := l;
  exception_kind := kind l;
  assigned_reviewer := Controller;
  exception_status := lit "pending"
|}.

(** Modelled from the spec: the record for a line below the confidence
    threshold (missing: the router's source): kind [low_confidence],
    default reviewer the Controller. *)
Definition by_confidence (l : Line) : ExceptionRecord := {|
  flagged_line := l;
  exception_kind := Some kind_low_confidence;
  assigned_reviewer := Controller;
  exception_status := lit "pending"
|}.

(** Modelled from the spec: the exception record the router creates for
    a line, if any (missing: the router's source): one record for every
    line that is flagged by the engine, below the threshold or in need of
    elevated approval. *)
Definition route_line (l : Line) : option ExceptionRecord :=
  match requires_elevated_approval l, is_exception l with
  | true, false => Some (by_policy l)
  | false, true => Some (by_engine l)
  | true, true => Some (if policy_flag_first then by_policy l else by_engine l)
  | false, false =>
      if Qle_bool CONFIDENCE_THRESHOLD (confidence l) then None
      else Some (by_confidence l)
  end.

(** Modelled from the spec: the exceptions created for a fresh draft
    (missing: the router's source). *)
Definition route (ls : list Line) : list ExceptionRecord :=
  omap route_line ls.

End Rule.





End Router.

(** ** The push gate

    The page renders a Push to ERP button without a handler; the
    operation behind it ([POST /api/invoices/{id}/push]) belongs to the
    back end. *)

Module Push.

Import InvoiceDetail.

(** Modelled from the spec: the outcomes of a push (missing: the back
    end's push operation). *)
Inductive PushOutcome :=
| Pushed (externalReference : jsstring)
| InvalidTransitionError
| PushError.

(** Modelled from the spec: the state a push acts on (missing: the back
    end's push operation): the invoice and the log of calls made to the
    Export Gate (the ids of the invoices submitted). *)
Record PushState := {
  pushed_invoice : Invoice;
  gate_calls : list jsstring
}.

(** Modelled from the spec: [pushInvoice] (missing: the back end's push
    operation).  Only an approved invoice is submitted to the Export
    Gate; an acknowledged submission moves it to [pushed], a failed one
    leaves it [approved]; from any other status the call fails with
    [InvalidTransitionError] before the gate is contacted. *)
Definition pushInvoice (exportGate : Invoice -> option jsstring) (s : PushState)
  : PushState * PushOutcome :=
  let inv := pushed_invoice s in
  if str_eqb (status inv) (lit "approved") then
    let calls := gate_calls s ++ [invoice_id inv] in
    match exportGate inv with
    | Some ref =>
        ({| pushed_invoice := with_status inv (lit "pushed"); gate_calls := calls |},
         Pushed ref)
    | None =>
        ({| pushed_invoice := inv; gate_calls := calls |}, PushError)
    end
  else (s, InvalidTransitionError).

Definition succeeded (o : PushOutcome) : bool :=
  match o with Pushed _ => true | _ => false end.

(** An Export Gate that acknowledges everything. *)
Definition accepting_gate (inv : Invoice) : option jsstring :=
  Some (lit "QB-" ++ invoice_id inv).

(** Scenario E of the specification: a push requested for the draft
    sample invoice, with no gate call made so far. *)
Definition draft_push : PushState :=
  {| pushed_invoice := sampleInvoice; gate_calls := [] |}.

End Push.

(** ** The invoice queue's search box, status filter and colour code *)

Module InvoiceQueue.

Import Invoices.

(** [getConfidenceColor] *)
Definition getConfidenceColor (confidence : Q) : jsstring :=
  if Qle_bool 0.9 confidence then lit "bg-green-100 text-green-800"
  else if Qle_bool 0.8 confidence then lit "bg-yellow-100 text-yellow-800"
  else lit "bg-red-100 text-red-800".

(** The [onChange] of the status dropdown: [e.target.value || null]. *)
Definition onStatusFilterChange (value : jsstring) : option jsstring :=
  if truthy value then Some value else None.

Section Filter.

(** [String.prototype.toLowerCase] follows the Unicode case tables; it is
    kept abstract here. *)
Variable toLowerCase : jsstring -> jsstring.

Definition matchesSearch (searchQuery : jsstring) (inv : InvoiceSummary) : bool :=
  includes (toLowerCase (contractName inv)) (toLowerCase searchQuery)
  || includes (toLowerCase (id inv)) (toLowerCase searchQuery).

(** [!statusFilter || inv.status === statusFilter], the filter being a
    string or [null]. *)
Definition matchesStatus (statusFilter : option jsstring) (inv : InvoiceSummary) : bool :=
  match statusFilter with
  | None => true
  | Some f => negb (truthy f) || str_eqb (status inv) f
  end.

(** The filter of the page, over any list of invoices. *)
Definition filterInvoices (invs : list InvoiceSummary)
    (searchQuery : jsstring) (statusFilter : option jsstring) : list InvoiceSummary :=
  List.filter (fun inv => matchesSearch searchQuery inv && matchesStatus statusFilter inv) invs.

(** [filteredInvoices] *)
Definition filteredInvoices (searchQuery : jsstring) (statusFilter : option jsstring)
  : list InvoiceSummary :=
  filterInvoices invoices searchQuery statusFilter.

End Filter.

(** Lower-casing of the code units A to Z, which is what [toLowerCase]
    does on strings of ASCII code units. *)
Definition toLowerCase_ascii (s : jsstring) : jsstring :=
  (fun c : N => if (65 <=? c)%N && (c <=? 90)%N then (c + 32)%N else c) <$> s.

End InvoiceQueue.

(** ** The sidebar (components/layout/Sidebar.tsx) *)

Module Sidebar.

(** A navigation entry; its icon, a component, plays no part in what
    follows. *)
Record NavItem := { name : jsstring; href : jsstring }.

Definition navigation : list NavItem :=
  [ {| name := lit "Dashboard"; href := lit "/" |};
    {| name := lit "Contract Library"; href := lit "/contracts" |};
    {| name := lit "Invoice Queue"; href := lit "/invoices" |};
    {| name := lit "Exception Center"; href := lit "/exceptions" |};
    {| name := lit "Audit Timeline"; href := lit "/audit" |} ].

Definition secondaryNavigation : list NavItem :=
  [ {| name := lit "Settings"; href := lit "/settings" |} ].

(** [pathname === item.href ||
     (item.href !== '/' && pathname.startsWith(item.href))] *)
Definition isActive (pathname : jsstring) (item : NavItem) : bool :=
  str_eqb pathname (href item)
  || (negb (str_eqb (href item) (lit "/")) && startsWith pathname (href item)).

(** The entries of the main navigation drawn as active. *)
Definition activeItems (pathname : jsstring) : list NavItem :=
  List.filter (isActive pathname) navigation.

End Sidebar.

(** ** The exception centre's status filter, over any list of exceptions *)

Module ExceptionCentre.

Import Exceptions.

Definition shown (statusFilter : StatusFilter) (exc : Exception) : bool :=
  match statusFilter with
  | all => true
  | pending => str_eqb (status exc) (lit "pending")
  | resolved => str_eqb (status exc) (lit "resolved")
  end.

(** [filteredExceptions], for any list in place of the sample data. *)
Definition filterExceptions (excs : list Exception) (statusFilter : StatusFilter)
  : list Exception :=
  List.filter (shown statusFilter) excs.

(** [pendingCount], for any list in place of the sample data. *)
Definition countPending (excs : list Exception) : nat :=
  length (List.filter (fun e => str_eqb (status e) (lit "pending")) excs).

(** The alert banner is drawn when [pendingCount > 0]. *)
Definition bannerShown (excs : list Exception) : bool :=
  (0 <? countPending excs)%nat.

End ExceptionCentre.

(** * Properties *)

(** ** Strings *)

Lemma trim_empty : trim [] = [].
Proof. reflexivity. Qed.

Lemma truthy_trim_nonempty (s : jsstring) : truthy (trim s) = true -> s <> [].
Proof. intros H ->. discriminate H. Qed.

Lemma startsWith_app (s p : jsstring) : startsWith (p ++ s) p = true.
Proof.
  induction p as [|c p IH]; simpl; [reflexivity|].
  rewrite N.eqb_refl. exact IH.
Qed.

Lemma includes_startsWith (s p : jsstring) :
  startsWith s p = true -> includes s p = true.
Proof. intros H. destruct s; simpl; rewrite H; reflexivity. Qed.

Lemma includes_app (pre s p : jsstring) : includes (pre ++ p ++ s) p = true.
Proof.
  induction pre as [|c pre IH].
  - apply includes_startsWith. exact (startsWith_app s p).
  - simpl. rewrite IH. apply orb_true_r.
Qed.

Lemma startsWith_prefix (s p : jsstring) :
  startsWith s p = true -> exists rest, s = p ++ rest.
Proof.
  revert s. induction p as [|c p IH]; intros s H.
  - exists s. reflexivity.
  - destruct s as [|d s]; simpl in H; [discriminate|].
    apply andb_true_iff in H as [Hc Hp].
    apply N.eqb_eq in Hc. subst d.
    destruct (IH _ Hp) as [rest ->]. exists rest. reflexivity.
Qed.

(** [includes] finds exactly the strings that occur as a contiguous run. *)
Lemma includes_spec (s p : jsstring) :
  includes s p = true <-> exists pre post, s = pre ++ p ++ post.
Proof.
  split.
  - induction s as [|c s IH]; simpl; intros H.
    + rewrite orb_false_r in H. apply startsWith_prefix in H as [rest E].
      exists [], rest. exact E.
    + apply orb_true_iff in H as [H|H].
      * apply startsWith_prefix in H as [rest E]. exists [], rest. exact E.
      * destruct (IH H) as (pre & post & ->). exists (c :: pre), post. reflexivity.
  - intros (pre & post & ->). apply includes_app.
Qed.

(** ** The approval modal *)

Section ModalFacts.

Import ApprovalModal.

Lemma allLinesReviewed_true (invoice : Invoice) (m : ModalState) :
  allLinesReviewed invoice m = true <->
  forall line, line ∈ lines invoice -> line_id line ∈ reviewedLines m.
Proof.
  unfold allLinesReviewed. rewrite forallb_forall. split.
  - intros H line Hin. apply list_elem_of_In in Hin.
    specialize (H _ Hin). by apply bool_decide_eq_true in H.
  - intros H line Hin. apply bool_decide_eq_true, H, list_elem_of_In, Hin.
Qed.

Lemma allLinesReviewed_setError invoice m e :
  allLinesReviewed invoice (setError m e) = allLinesReviewed invoice m.
Proof. reflexivity. Qed.

(** The four ways [handleSubmit] ends without calling [onApprove], and
    the one way it calls it. *)
Lemma handleSubmit_cases (invoice : Invoice) (m : ModalState) :
  (truthy (trim (approverName m)) = false
     /\ handleSubmit invoice m = (setError m msg_name, None))
  \/ (truthy (trim (approverName m)) = true
     /\ (truthy (trim (approverEmail m)) = false
         \/ includes (approverEmail m) (lit "@") = false)
     /\ handleSubmit invoice m = (setError m msg_email, None))
  \/ (truthy (trim (approverName m)) = true
     /\ truthy (trim (approverEmail m)) = true
     /\ includes (approverEmail m) (lit "@") = true
     /\ allLinesReviewed invoice m = false
     /\ handleSubmit invoice m = (setError m msg_lines, None))
  \/ (truthy (trim (approverName m)) = true
     /\ truthy (trim (approverEmail m)) = true
     /\ includes (approverEmail m) (lit "@") = true
     /\ allLinesReviewed invoice m = true
     /\ confirmReviewed m = false
     /\ handleSubmit invoice m = (setError m msg_confirm, None))
  \/ (truthy (trim (approverName m)) = true
     /\ truthy (trim (approverEmail m)) = true
     /\ includes (approverEmail m) (lit "@") = true
     /\ allLinesReviewed invoice m = true
     /\ confirmReviewed m = true
     /\ handleSubmit invoice m =
          (setError m [],
           Some {| approver_name := approverName m;
                   approver_email := approverEmail m;
                   approval_note := approvalNote m;
                   confirm_reviewed := true |})).
Proof.
  unfold handleSubmit; cbn [approverName approverEmail approvalNote confirmReviewed setError].
  rewrite allLinesReviewed_setError.
  destruct (truthy (trim (approverName m))) eqn:Hn; cbn [negb]; [|by left].
  right.
  destruct (truthy (trim (approverEmail m))) eqn:He; cbn [negb orb];
    [|left; by eauto].
  destruct (includes (approverEmail m) (lit "@")) eqn:Hat; cbn [negb];
    [|left; by eauto].
  right.
  destruct (allLinesReviewed invoice m) eqn:Hall; cbn [negb]; [|by left].
  right.
  destruct (confirmReviewed m) eqn:Hc; cbn [negb]; [by right | by left].
Qed.

End ModalFacts.

Section ModalClaims.

Import ApprovalModal.

(** C9. [handleSubmit] calls [onApprove] only when the approver name is
    non-empty, the approver email contains an at sign, every line id of
    the invoice is in the reviewed set and the confirmation box is
    checked; the payload it passes always has [confirm_reviewed] equal
    to [true] (and carries the name, email and note as typed). *)
Theorem onApprove_only_when_valid
    (invoice : Invoice) (m m' : ModalState) (data : ApprovalData) :
  handleSubmit invoice m = (m', Some data) ->
  approverName m <> []
  /\ includes (approverEmail m) (lit "@") = true
  /\ (forall line, line ∈ lines invoice -> line_id line ∈ reviewedLines m)
  /\ confirmReviewed m = true
  /\ confirm_reviewed data = true
  /\ approver_name data = approverName m
  /\ approver_email data = approverEmail m
  /\ approval_note data = approvalNote m.
Proof.
  intros H.
  destruct (handleSubmit_cases invoice m)
    as [[_ E]|[(_ & _ & E)|[(_ & _ & _ & _ & E)|[(_ & _ & _ & _ & _ & E)
       |(Hn & _ & Hat & Hall & Hc & E)]]]];
    rewrite E in H; try discriminate H.
  injection H as _ <-.
  split; [by apply truthy_trim_nonempty|].
  split; [exact Hat|].
  split; [by apply allLinesReviewed_true|].
  by repeat split.
Qed.

Lemma onApprove_only_when_valid_witness :
  approverName filled_form <> []
  /\ includes (approverEmail filled_form) (lit "@") = true
  /\ (forall line, line ∈ lines sampleProps -> line_id line ∈ reviewedLines filled_form)
  /\ confirmReviewed filled_form = true.
Proof.
  pose proof (onApprove_only_when_valid sampleProps filled_form
                (setError filled_form [])
                {| approver_name := approverName filled_form;
                   approver_email := approverEmail filled_form;
                   approval_note := approvalNote filled_form;
                   confirm_reviewed := true |}) as H.
  destruct H as (H1 & H2 & H3 & H4 & _).
  - vm_compute. reflexivity.
  - exact (conj H1 (conj H2 (conj H3 H4))).
Defined.

(** C5, as the code has it. An approval attempt in which not every line
    is in the reviewed set is rejected: the submit button is disabled,
    and [handleSubmit] does not call [onApprove]; the error it sets is
    one of three fixed messages, and once name and email pass their
    checks it is the fixed text asking to review all line items. *)
Theorem partial_review_rejected (invoice : Invoice) (m : ModalState) :
  allLinesReviewed invoice m = false ->
  submitEnabled invoice m = false
  /\ snd (handleSubmit invoice m) = None
  /\ (error (fst (handleSubmit invoice m)) = msg_name
      \/ error (fst (handleSubmit invoice m)) = msg_email
      \/ error (fst (handleSubmit invoice m)) = msg_lines)
  /\ (truthy (trim (approverName m)) = true ->
      truthy (trim (approverEmail m)) = true ->
      includes (approverEmail m) (lit "@") = true ->
      error (fst (handleSubmit invoice m)) = msg_lines).
Proof.
  intros Hall.
  split; [unfold submitEnabled; by rewrite Hall|].
  destruct (handleSubmit_cases invoice m)
    as [[Hn E]|[(Hn & He & E)|[(Hn & He & Hat & _ & E)|[(_ & _ & _ & Hall' & _)
       |(_ & _ & _ & Hall' & _)]]]];
    try congruence; rewrite E; cbn [fst snd error setError].
  - split; [reflexivity|]. split; [by left|]. intros Hn'. congruence.
  - split; [reflexivity|]. split; [by right; left|].
    intros _ He' Hat'. destruct He; congruence.
  - split; [reflexivity|]. split; [by right; right|]. reflexivity.
Qed.

Lemma partial_review_rejected_witness :
  allLinesReviewed sampleProps partly_reviewed_form = false
  /\ snd (handleSubmit sampleProps partly_reviewed_form) = None
  /\ error (fst (handleSubmit sampleProps partly_reviewed_form)) = msg_lines.
Proof.
  assert (Hall : allLinesReviewed sampleProps partly_reviewed_form = false)
    by (vm_compute; reflexivity).
  destruct (partial_review_rejected sampleProps partly_reviewed_form Hall)
    as (_ & Hnone & _ & Hmsg).
  split; [exact Hall|]. split; [exact Hnone|].
  apply Hmsg; vm_compute; reflexivity.
Defined.

(** C5 as stated fails: with lines l2 and l3 unreviewed the attempt is
    rejected, but the error text is the fixed message, which contains
    neither id. *)
Lemma rejection_message_names_no_line :
  unreviewed_ids sampleProps partly_reviewed_form = [lit "l2"; lit "l3"]
  /\ snd (handleSubmit sampleProps partly_reviewed_form) = None
  /\ error (fst (handleSubmit sampleProps partly_reviewed_form)) = msg_lines
  /\ includes msg_lines (lit "l2") = false
  /\ includes msg_lines (lit "l3") = false
  /\ ~ (forall (invoice : Invoice) (m : ModalState) (lineId : jsstring),
          lineId ∈ unreviewed_ids invoice m ->
          includes (error (fst (handleSubmit invoice m))) lineId = true).
Proof.
  assert (Hids : unreviewed_ids sampleProps partly_reviewed_form = [lit "l2"; lit "l3"])
    by (vm_compute; reflexivity).
  assert (Hmsg : includes (error (fst (handleSubmit sampleProps partly_reviewed_form)))
                   (lit "l2") = false)
    by (vm_compute; reflexivity).
  repeat split; try (vm_compute; reflexivity); try exact Hids.
  intros H. specialize (H sampleProps partly_reviewed_form (lit "l2")).
  rewrite Hids, Hmsg in H. discriminate H. set_solver.
Qed.

End ModalClaims.

(** ** The invoice detail page *)

Section PageFacts.

Import InvoiceDetail App.

(** C10. [handleApprove] sets the status to [approved] and leaves every
    other field of the invoice (ids, lines, subtotal, tax, total,
    aggregate confidence, dates, texts) as it was. *)
Theorem handleApprove_changes_status_only
    {A : Type} (p : PageState) (approvalData : A) :
  status (invoice (handleApprove p approvalData)) = lit "approved"
  /\ invoice_id (invoice (handleApprove p approvalData)) = invoice_id (invoice p)
  /\ contract_id (invoice (handleApprove p approvalData)) = contract_id (invoice p)
  /\ drafted_by (invoice (handleApprove p approvalData)) = drafted_by (invoice p)
  /\ lines (invoice (handleApprove p approvalData)) = lines (invoice p)
  /\ subtotal (invoice (handleApprove p approvalData)) = subtotal (invoice p)
  /\ tax (invoice (handleApprove p approvalData)) = tax (invoice p)
  /\ total (invoice (handleApprove p approvalData)) = total (invoice p)
  /\ invoice_date (invoice (handleApprove p approvalData)) = invoice_date (invoice p)
  /\ due_date (invoice (handleApprove p approvalData)) = due_date (invoice p)
  /\ explainability (invoice (handleApprove p approvalData)) = explainability (invoice p)
  /\ aggregate_confidence (invoice (handleApprove p approvalData))
     = aggregate_confidence (invoice p)
  /\ created_at (invoice (handleApprove p approvalData)) = created_at (invoice p).
Proof. repeat split. Qed.

Lemma reachable_run (es : list Event) (s s' : AppState) :
  reachable s -> run s es = Some s' -> reachable s'.
Proof.
  revert s. induction es as [|e es IH]; simpl; intros s Hs Hrun.
  - by injection Hrun as <-.
  - destruct (step s e) as [s1|] eqn:E; [|discriminate].
    eapply IH; [|exact Hrun]. by eapply reach_step.
Qed.

(** A step either keeps the invoice object, or is a submit click in the
    open modal that passed every check of [handleSubmit] and went
    through [handleApprove]. *)
Lemma step_invoice (s s' : AppState) (e : Event) :
  step s e = Some s' ->
  invoice (page s') = invoice (page s)
  \/ (e = ClickSubmit
      /\ showApprovalModal (page s) = true
      /\ (exists m' data,
            ApprovalModal.handleSubmit (modalInvoice s) (modal s) = (m', Some data))
      /\ invoice (page s') = with_status (invoice (page s)) (lit "approved")
      /\ showApprovalModal (page s') = false).
Proof.
  destruct e; cbn [step]; intros H.
  - destruct (approveButtonShown _); [|discriminate].
    injection H as <-. by left.
  - destruct (showApprovalModal (page s)); [|discriminate].
    injection H as <-. by left.
  - destruct (showApprovalModal (page s) && _); [|discriminate].
    injection H as <-. by left.
  - destruct (showApprovalModal (page s)); [|discriminate].
    injection H as <-. by left.
  - destruct (showApprovalModal (page s)); [|discriminate].
    injection H as <-. by left.
  - destruct (showApprovalModal (page s)); [|discriminate].
    injection H as <-. by left.
  - destruct (showApprovalModal (page s)); [|discriminate].
    injection H as <-. by left.
  - destruct (showApprovalModal (page s)) eqn:Hshow; [|discriminate].
    cbn [andb] in H.
    destruct (ApprovalModal.submitEnabled _ _); [|discriminate].
    destruct (ApprovalModal.handleSubmit _ _) as [m' [data|]] eqn:E;
      injection H as <-.
    + right. repeat split; eauto.
    + by left.
Qed.

(** With the modal closed and no Approve button, nothing can be done. *)
Lemma no_step_when_closed (s : AppState) (e : Event) :
  showApprovalModal (page s) = false ->
  approveButtonShown (invoice (page s)) = false ->
  step s e = None.
Proof. intros Hshow Hbtn. destruct e; cbn [step]; by rewrite ?Hshow, ?Hbtn. Qed.

(** The invoice the page holds is the sample invoice, or the sample
    invoice with status [approved]; the modal is open only in the
    first case. *)
Lemma page_invariant (s : AppState) :
  reachable s ->
  invoice (page s) = sampleInvoice
  \/ (invoice (page s) = with_status sampleInvoice (lit "approved")
      /\ showApprovalModal (page s) = false).
Proof.
  induction 1 as [|s e s' Hs IH Hstep]; [by left|].
  destruct IH as [IH|[IH Hshow]].
  - destruct (step_invoice _ _ _ Hstep) as [->|(_ & _ & _ & -> & Hclosed)].
    + by left.
    + right. by rewrite IH.
  - rewrite no_step_when_closed in Hstep; [discriminate|exact Hshow|].
    rewrite IH. reflexivity.
Qed.

Lemma modal_open_on_draft_only (s : AppState) :
  reachable s -> showApprovalModal (page s) = true ->
  status (invoice (page s)) = lit "draft".
Proof.
  intros Hs Hshow. destruct (page_invariant s Hs) as [->|[_ Hclosed]].
  - reflexivity.
  - congruence.
Qed.

End PageFacts.

Section PageClaims.

Import InvoiceDetail App.

Lemma submit_preconditions
    (inv : ApprovalModal.Invoice) (m m' : ApprovalModal.ModalState)
    (data : ApprovalModal.ApprovalData) :
  ApprovalModal.handleSubmit inv m = (m', Some data) ->
  truthy (trim (ApprovalModal.approverName m)) = true
  /\ truthy (trim (ApprovalModal.approverEmail m)) = true
  /\ includes (ApprovalModal.approverEmail m) (lit "@") = true
  /\ ApprovalModal.allLinesReviewed inv m = true
  /\ ApprovalModal.confirmReviewed m = true.
Proof.
  intros H.
  destruct (handleSubmit_cases inv m)
    as [[_ E]|[(_ & _ & E)|[(_ & _ & _ & _ & E)|[(_ & _ & _ & _ & _ & E)
       |(Hn & He & Hat & Hall & Hc & _)]]]];
    try (rewrite E in H; discriminate H).
  by repeat split.
Qed.

Lemma ready_to_submit_reachable : reachable ready_to_submit.
Proof.
  apply (reachable_run fill_in_form initial); [apply reach_initial|].
  vm_compute. reflexivity.
Qed.

(** C1 as stated fails: the sample invoice is a draft, not pending
    review, and the approval session on it ends with status approved;
    [handleApprove] applied to the draft page gives status approved. *)
Lemma approve_from_draft_succeeds :
  status (invoice (page initial)) = lit "draft"
  /\ status (invoice (page initial)) <> lit "pending_review"
  /\ status (invoice (handleApprove (page initial) tt)) = lit "approved"
  /\ exists s, run initial approval_session = Some s
               /\ status (invoice (page s)) = lit "approved".
Proof.
  split; [reflexivity|]. split; [discriminate|]. split; [reflexivity|].
  eexists. split; vm_compute; reflexivity.
Qed.

(** C1, as the code has it. On the invoice detail page the approve
    action succeeds only when the invoice status is draft, with a
    non-blank approver name and email, an email containing an at sign,
    every line in the reviewed set and the confirmation box checked; it
    sets the status to approved. In any other status the page offers no
    action at all, so the status stays as it is. *)
Theorem approve_only_from_draft (s : AppState) :
  reachable s ->
  (forall e s',
      step s e = Some s' ->
      status (invoice (page s')) <> status (invoice (page s)) ->
      e = ClickSubmit
      /\ status (invoice (page s)) = lit "draft"
      /\ status (invoice (page s')) = lit "approved"
      /\ truthy (trim (ApprovalModal.approverName (modal s))) = true
      /\ truthy (trim (ApprovalModal.approverEmail (modal s))) = true
      /\ includes (ApprovalModal.approverEmail (modal s)) (lit "@") = true
      /\ ApprovalModal.allLinesReviewed (modalInvoice s) (modal s) = true
      /\ ApprovalModal.confirmReviewed (modal s) = true)
  /\ (status (invoice (page s)) <> lit "draft" -> forall e, step s e = None).
Proof.
  intros Hs. split.
  - intros e s' Hstep Hchange.
    destruct (step_invoice _ _ _ Hstep)
      as [E|(-> & Hshow & (m' & data & Hsub) & E & _)]; [congruence|].
    split; [reflexivity|].
    split; [by apply modal_open_on_draft_only|].
    split; [by rewrite E|].
    by eapply submit_preconditions.
  - intros Hnot e.
    destruct (page_invariant s Hs) as [E|[E Hshow]].
    + rewrite E in Hnot. by destruct Hnot.
    + apply no_step_when_closed; [exact Hshow|]. by rewrite E.
Qed.

Lemma approve_only_from_draft_witness :
  status (invoice (page ready_to_submit)) = lit "draft"
  /\ exists s', step ready_to_submit ClickSubmit = Some s'
                /\ status (invoice (page s')) = lit "approved".
Proof.
  destruct (approve_only_from_draft ready_to_submit ready_to_submit_reachable)
    as [Hchange _].
  assert (Hstep : step ready_to_submit ClickSubmit
                  = Some {| page := handleApprove (page ready_to_submit) tt;
                            modal := ApprovalModal.filled_form |})
    by (vm_compute; reflexivity).
  destruct (Hchange _ _ Hstep) as (_ & Hdraft & Happroved & _);
    [vm_compute; discriminate|].
  split; [exact Hdraft|]. eexists. split; [exact Hstep|exact Happroved].
Defined.




End PageClaims.

(** ** Confidence *)

Section ConfidenceClaims.

Import InvoiceDetail App.
Open Scope Q_scope.

Lemma foldr_Qmin_lower_bound (ls : list InvoiceLine) (a : Q) :
  foldr (fun l acc => Qmin (confidence l) acc) a ls <= a
  /\ Forall (fun l => foldr (fun l acc => Qmin (confidence l) acc) a ls
                      <= confidence l) ls.
Proof.
  induction ls as [|l ls [IHa IHls]]; simpl.
  - split; [apply Qle_refl|constructor].
  - split.
    + eapply Qle_trans; [apply Q.le_min_r|exact IHa].
    + constructor; [apply Q.le_min_l|].
      eapply Forall_impl; [exact IHls|].
      intros l' Hl'. simpl in Hl'. eapply Qle_trans; [apply Q.le_min_r|exact Hl'].
Qed.

(** [min_confidence] is a lower bound of every line's confidence. *)
Lemma min_confidence_lower_bound (ls : list InvoiceLine) (lo : Q) :
  min_confidence ls = Some lo -> Forall (fun l => lo <= confidence l) ls.
Proof.
  destruct ls as [|l ls]; simpl; intros H; [discriminate|].
  injection H as <-.
  destruct (foldr_Qmin_lower_bound ls (confidence l)) as [Ha Hls].
  constructor; [exact Ha|exact Hls].
Qed.

(** C2 as stated fails on the sample invoice: its lines have
    confidences 0.93, 0.91 and 0.88, the minimum is 0.88, and the stored
    aggregate confidence is 0.91. *)
Lemma sample_aggregate_is_not_the_minimum :
  exists lo,
    min_confidence (lines sampleInvoice) = Some lo
    /\ lo == 0.88
    /\ aggregate_confidence sampleInvoice == 0.91
    /\ ~ aggregate_confidence sampleInvoice == lo.
Proof.
  eexists. split; [vm_compute; reflexivity|].
  split; [reflexivity|]. split; [reflexivity|].
  intros H. vm_compute in H. discriminate H.
Qed.

(** C2, as the code has it. The aggregate confidence is a field stored
    with the draft: the modal reads it as stored and no action of the
    page changes or recomputes it, nor the lines, whatever the invoice.
    In the draft the page holds, at every state it can reach, it is not
    below the minimum of the lines' confidences, and it is not that
    minimum. *)
Theorem aggregate_confidence_is_stored (s : AppState) :
  (forall e s', step s e = Some s' ->
     aggregate_confidence (invoice (page s')) = aggregate_confidence (invoice (page s))
     /\ lines (invoice (page s')) = lines (invoice (page s)))
  /\ ApprovalModal.aggregate_confidence (modalInvoice s)
     = aggregate_confidence (invoice (page s))
  /\ (reachable s ->
      exists lo,
        min_confidence (lines (invoice (page s))) = Some lo
        /\ lo <= aggregate_confidence (invoice (page s))
        /\ ~ aggregate_confidence (invoice (page s)) == lo).
Proof.
  split.
  { intros e s' Hstep.
    destruct (step_invoice _ _ _ Hstep) as [->|(_ & _ & _ & -> & _)]; by split. }
  split; [reflexivity|].
  intros Hs.
  destruct (page_invariant s Hs) as [->|[-> _]];
    (eexists; split; [vm_compute; reflexivity|];
     split; [vm_compute; discriminate|];
     intros H; vm_compute in H; discriminate H).
Qed.

Lemma aggregate_confidence_is_stored_witness :
  exists lo,
    min_confidence (lines (invoice (page ready_to_submit))) = Some lo
    /\ lo <= aggregate_confidence (invoice (page ready_to_submit)).
Proof.
  destruct (aggregate_confidence_is_stored ready_to_submit) as (_ & _ & Hreach).
  destruct (Hreach ready_to_submit_reachable) as (lo & Hmin & Hle & _).
  exists lo. split; [exact Hmin|exact Hle].
Defined.

(** The queue shows the same invoice with yet another score, the
    highest of its lines' confidences. *)
Lemma queue_confidence_of_sample_invoice :
  exists i, i ∈ Invoices.invoices
            /\ Invoices.id i = invoice_id sampleInvoice
            /\ Some (Invoices.confidence i) = max_confidence (lines sampleInvoice).
Proof.
  eexists. split; [apply list_elem_of_here|]. split; vm_compute; reflexivity.
Qed.

(** Every record of the queue has total = subtotal + tax. *)
Lemma queue_totals :
  Forall (fun i => Invoices.total i = (Invoices.subtotal i + Invoices.tax i)%Z)
         Invoices.invoices.
Proof. repeat constructor. Qed.

End ConfidenceClaims.

(** ** Exceptions *)

Section ExceptionClaims.

Import Exceptions.

(** Every exception of the source has a kind of the table, so its badge
    renders. *)
Lemma source_exceptions_have_known_kinds :
  Forall (fun e => is_Some (typeBadge e)) exceptions.
Proof. repeat constructor; vm_compute; eauto. Qed.

End ExceptionClaims.

(** ** Routing *)

Section RouterClaims.

Import Derivation Router.
Open Scope Q_scope.

(** The router creates a record exactly for the lines its test flags. *)
Lemma route_line_iff_flagged (policy_flag_first : bool) (l : Line) :
  is_Some (route_line policy_flag_first l) <-> flagged l = true.
Proof.
  unfold route_line, flagged.
  destruct (requires_elevated_approval l), (is_exception l); cbn [orb];
    rewrite ?orb_true_r; try (split; [reflexivity|eauto]).
  rewrite orb_false_r.
  destruct (Qle_bool CONFIDENCE_THRESHOLD (confidence l)); cbn [negb]; split;
    try reflexivity; try discriminate; eauto.
  intros [? ?]. discriminate.
Qed.




End RouterClaims.

(** ** Derivation *)

Section DerivationClaims.

Import Derivation.

Variable trigger_matches : jsstring -> jsstring -> bool.
Variable specificity : jsstring -> nat.
Variable line_confidence : Q -> bool -> Q.

Lemma filter_no_match (clauses : list Clause) (e : WorkEvent) :
  (forall c, c ∈ clauses -> matches trigger_matches e c = false) ->
  List.filter (matches trigger_matches e) clauses = [].
Proof.
  induction clauses as [|c cs IH]; intros H; simpl; [reflexivity|].
  rewrite (H c) by apply list_elem_of_here.
  apply IH. intros d Hd. apply H. by apply list_elem_of_further.
Qed.

Lemma routed_status_exception (ls : list Line) (l : Line) :
  l ∈ ls -> flagged l = true -> routed_status ls = lit "exception".
Proof.
  intros Hin Hflag. unfold routed_status.
  assert (existsb flagged ls = true) as ->; [|reflexivity].
  apply existsb_exists. exists l. split; [by apply list_elem_of_In|exact Hflag].
Qed.

(** C7. For a work event that no clause of the contract matches,
    derivation emits a line with [is_exception] set whose kind is
    [data-missing], and the invoice derived from any set of events
    containing it is in status [exception]. *)
Theorem no_match_gives_data_missing_exception
    (clauses : list Clause) (events : list WorkEvent) (e : WorkEvent) :
  clauses <> [] ->
  e ∈ events ->
  (forall c, c ∈ clauses -> matches trigger_matches e c = false) ->
  is_exception (derive_line trigger_matches specificity line_confidence clauses e) = true
  /\ kind (derive_line trigger_matches specificity line_confidence clauses e)
     = Some (lit "data-missing")
  /\ exists draft,
       deriveInvoice trigger_matches specificity line_confidence clauses events = inr draft
       /\ derive_line trigger_matches specificity line_confidence clauses e ∈ lines draft
       /\ status draft = lit "exception".
Proof.
  intros Hne Hin Hno.
  assert (Hline : derive_line trigger_matches specificity line_confidence clauses e
                  = {| quantity := units e; line_unit_price := 0; amount := 0;
                       source_clause_id := None; source_event_ids := [event_id e];
                       confidence := 0; is_exception := true;
                       kind := Some kind_data_missing;
                       requires_elevated_approval := false |}).
  { unfold derive_line. by rewrite filter_no_match. }
  split; [by rewrite Hline|]. split; [by rewrite Hline|].
  destruct clauses as [|c cs]; [by destruct Hne|].
  eexists. split; [reflexivity|]. cbn [lines status].
  assert (Hmem : derive_line trigger_matches specificity line_confidence (c :: cs) e ∈ derive_line trigger_matches specificity line_confidence (c :: cs) <$> events)
    by (by apply list_elem_of_fmap_2).
  split; [exact Hmem|].
  eapply routed_status_exception; [exact Hmem|]. by rewrite Hline.
Qed.

(** C8. For a work event with exactly one matching clause the derived
    line is no exception and carries the event's quantity and the
    clause's unit price; its amount is quantity times unit price for a
    time-and-materials clause, and the clause's fixed milestone amount,
    whatever the quantity, for a fixed-milestone clause. *)
Theorem single_match_amount
    (clauses : list Clause) (e : WorkEvent) (c : Clause) :
  List.filter (matches trigger_matches e) clauses = [c] ->
  is_exception (derive_line trigger_matches specificity line_confidence clauses e) = false
  /\ kind (derive_line trigger_matches specificity line_confidence clauses e) = None
  /\ source_clause_id (derive_line trigger_matches specificity line_confidence clauses e) = Some (clause_id c)
  /\ quantity (derive_line trigger_matches specificity line_confidence clauses e) = units e
  /\ line_unit_price (derive_line trigger_matches specificity line_confidence clauses e) = unit_price c
  /\ (basis c = time_and_materials ->
        amount (derive_line trigger_matches specificity line_confidence clauses e)
        = (quantity (derive_line trigger_matches specificity line_confidence clauses e) * line_unit_price (derive_line trigger_matches specificity line_confidence clauses e))%Z)
  /\ (forall milestone_amount, basis c = fixed_milestone milestone_amount ->
        amount (derive_line trigger_matches specificity line_confidence clauses e) = milestone_amount).
Proof.
  intros Hone. unfold derive_line. rewrite Hone.
  cbn [matched_line is_exception kind source_clause_id quantity line_unit_price amount].
  repeat split; unfold line_amount.
  - by intros ->.
  - by intros a ->.
Qed.

End DerivationClaims.

Section DerivationScenarios.

Import Derivation.

(** The exception centre's table spells the kind of missing data
    [missing_data]; it has no entry under [data-missing]. *)
Lemma typeConfig_spells_missing_data :
  Exceptions.typeConfig !! lit "data-missing" = None
  /\ is_Some (Exceptions.typeConfig !! lit "missing_data").
Proof. split; [vm_compute; reflexivity|vm_compute; eauto]. Qed.

Lemma no_match_gives_data_missing_exception_witness :
  is_exception (derive_exact [clause_tm; clause_milestone] event_expense) = true
  /\ exists draft,
       deriveInvoice_exact
         [clause_tm; clause_milestone] [event_10h; event_expense] = inr draft
       /\ status draft = lit "exception".
Proof.
  destruct (no_match_gives_data_missing_exception
              exact_trigger flat_specificity plain_confidence
              [clause_tm; clause_milestone] [event_10h; event_expense] event_expense)
    as (Hexc & _ & draft & Hd & _ & Hst).
  - discriminate.
  - set_solver.
  - intros c Hc. apply list_elem_of_In in Hc. simpl in Hc.
    destruct Hc as [<-|[<-|[]]]; vm_compute; reflexivity.
  - split; [exact Hexc|]. exists draft. split; [exact Hd|exact Hst].
Defined.

(** Scenario A: 10 hours at 200 per hour give an amount of 2000 on a
    line that is no exception. *)
Lemma single_match_amount_witness :
  amount (derive_exact [clause_tm] event_10h) = 2000%Z
  /\ is_exception (derive_exact [clause_tm] event_10h) = false.
Proof.
  destruct (single_match_amount exact_trigger flat_specificity plain_confidence
              [clause_tm] event_10h clause_tm)
    as (Hexc & _ & _ & Hq & Hp & Htm & _).
  - vm_compute. reflexivity.
  - split; [|exact Hexc]. unfold derive_exact.
    rewrite Htm by reflexivity. rewrite Hq, Hp. reflexivity.
Defined.

(** The sample invoice's lines carry the amounts the rule gives: the
    two hourly lines quantity times unit price, the fixed line its
    clause's milestone amount. *)
Lemma sample_lines_follow_amount_rule :
  amount <$> (derive_exact [clause_tm; clause_milestone]
                <$> [event_10h; event_5h; event_phase1])
  = InvoiceDetail.amount <$> InvoiceDetail.lines InvoiceDetail.sampleInvoice
  /\ Forall (fun l =>
               InvoiceDetail.is_exception l = false
               /\ InvoiceDetail.amount l
                  = (InvoiceDetail.quantity l * InvoiceDetail.unit_price l)%Z)
            (InvoiceDetail.lines InvoiceDetail.sampleInvoice).
Proof. split; [vm_compute; reflexivity|]. repeat constructor. Qed.

End DerivationScenarios.

(** ** Push *)

Section PushClaims.

Import InvoiceDetail Push.

(** C4. [pushInvoice] succeeds only for an approved invoice; from any
    other status it fails with [InvalidTransitionError], leaves the
    invoice and its status unchanged and makes no Export Gate call.  The
    page shows its Push to ERP button exactly for an approved invoice. *)
Theorem push_only_when_approved
    (exportGate : Invoice -> option jsstring) (s : PushState) :
  (succeeded (snd (pushInvoice exportGate s)) = true ->
     status (pushed_invoice s) = lit "approved")
  /\ (status (pushed_invoice s) <> lit "approved" ->
        snd (pushInvoice exportGate s) = InvalidTransitionError
        /\ pushed_invoice (fst (pushInvoice exportGate s)) = pushed_invoice s
        /\ status (pushed_invoice (fst (pushInvoice exportGate s)))
           = status (pushed_invoice s)
        /\ gate_calls (fst (pushInvoice exportGate s)) = gate_calls s)
  /\ (pushButtonShown (pushed_invoice s) = true
      <-> status (pushed_invoice s) = lit "approved").
Proof.
  unfold pushInvoice, pushButtonShown, str_eqb.
  split; [|split].
  - case_bool_decide as Hst; [done|]. cbn. discriminate.
  - intros Hne. case_bool_decide as Hst; [by destruct Hne|]. by cbn.
  - apply bool_decide_eq_true.
Qed.

Lemma push_only_when_approved_witness :
  status (pushed_invoice draft_push) = lit "draft"
  /\ snd (pushInvoice accepting_gate draft_push) = InvalidTransitionError
  /\ status (pushed_invoice (fst (pushInvoice accepting_gate draft_push))) = lit "draft"
  /\ gate_calls (fst (pushInvoice accepting_gate draft_push)) = [].
Proof.
  destruct (push_only_when_approved accepting_gate draft_push) as (_ & Hrej & _).
  destruct Hrej as (Herr & _ & Hst & Hcalls); [vm_compute; discriminate|].
  split; [reflexivity|]. split; [exact Herr|]. split; [exact Hst|exact Hcalls].
Defined.

(** An approved invoice does get through an acknowledging gate: one
    gate call, status [pushed]. *)
Lemma push_of_approved_invoice :
  let s := {| pushed_invoice := with_status sampleInvoice (lit "approved");
              gate_calls := [] |} in
  succeeded (snd (pushInvoice accepting_gate s)) = true
  /\ status (pushed_invoice (fst (pushInvoice accepting_gate s))) = lit "pushed"
  /\ gate_calls (fst (pushInvoice accepting_gate s)) = [invoice_id sampleInvoice].
Proof. vm_compute. repeat split. Qed.

End PushClaims.

(** * Further properties of the code *)

(** ** Blank input *)

Lemma trimStart_nil_iff (s : jsstring) :
  trimStart s = [] <-> forallb is_white_space s = true.
Proof.
  induction s as [|c s IH]; simpl; [done|].
  destruct (is_white_space c); simpl; [exact IH|]. split; discriminate.
Qed.

Lemma trimStart_head (s r : jsstring) (c : N) :
  trimStart s = c :: r -> is_white_space c = false.
Proof.
  induction s as [|d s IH]; simpl; [discriminate|].
  destruct (is_white_space d) eqn:E; [exact IH|].
  intros H. injection H as <- _. exact E.
Qed.

Lemma forallb_rev {A : Type} (f : A -> bool) (l : list A) :
  forallb f (rev l) = forallb f l.
Proof.
  apply eq_true_iff_eq. rewrite !forallb_forall.
  split; intros H x Hx; apply H; by apply in_rev in Hx || apply in_rev.
Qed.

(** [trim] leaves nothing exactly of the strings made of white space. *)
Lemma trim_blank_iff (s : jsstring) :
  truthy (trim s) = false <-> forallb is_white_space s = true.
Proof.
  unfold trim, trimEnd. split.
  - intros H.
    destruct (rev (trimStart (rev (trimStart s)))) as [|x xs] eqn:E; [|discriminate].
    apply (f_equal (@rev N)) in E. rewrite rev_involutive in E. simpl in E.
    apply trimStart_nil_iff in E. rewrite forallb_rev in E.
    destruct (trimStart s) as [|c r] eqn:Es; [by apply trimStart_nil_iff|].
    apply trimStart_head in Es. simpl in E. rewrite Es in E. discriminate E.
  - intros H. apply trimStart_nil_iff in H. rewrite H. reflexivity.
Qed.

Section ModalExtras.

Import ApprovalModal.

(** X1. A form that passes the four checks is submitted: with a name and
    an email that are not blank, an at sign in the email, every line of
    the invoice in the reviewed set and the confirmation box checked,
    [handleSubmit] clears the error and calls [onApprove] with the name,
    email and note exactly as typed (untrimmed) and [confirm_reviewed]
    true. *)
Theorem valid_form_calls_onApprove (invoice : Invoice) (m : ModalState) :
  forallb is_white_space (approverName m) = false ->
  forallb is_white_space (approverEmail m) = false ->
  includes (approverEmail m) (lit "@") = true ->
  (forall line, line ∈ lines invoice -> line_id line ∈ reviewedLines m) ->
  confirmReviewed m = true ->
  handleSubmit invoice m
  = (setError m [],
     Some {| approver_name := approverName m;
             approver_email := approverEmail m;
             approval_note := approvalNote m;
             confirm_reviewed := true |}).
Proof.
  intros Hn He Hat Hall Hc.
  apply allLinesReviewed_true in Hall.
  assert (Hn' : truthy (trim (approverName m)) = true).
  { destruct (truthy (trim (approverName m))) eqn:E; [done|].
    apply trim_blank_iff in E. congruence. }
  assert (He' : truthy (trim (approverEmail m)) = true).
  { destruct (truthy (trim (approverEmail m))) eqn:E; [done|].
    apply trim_blank_iff in E. congruence. }
  destruct (handleSubmit_cases invoice m)
    as [[? _]|[(_ & [?|?] & _)|[(_ & _ & _ & ? & _)|[(_ & _ & _ & _ & ? & _)
       |(_ & _ & _ & _ & _ & E)]]]]; try congruence.
Qed.

Lemma valid_form_calls_onApprove_witness :
  handleSubmit sampleProps filled_form
  = (setError filled_form [],
     Some {| approver_name := lit "Jane Doe";
             approver_email := lit "controller@company.com";
             approval_note := [];
             confirm_reviewed := true |}).
Proof.
  apply (valid_form_calls_onApprove sampleProps filled_form);
    try (vm_compute; reflexivity).
  intros line Hline. apply list_elem_of_In in Hline. simpl in Hline.
  destruct Hline as [<-|[<-|[<-|[]]]]; vm_compute; reflexivity.
Defined.

(** X2. The name counts as missing exactly when it consists of white
    space only (the empty name included): that is when, and only when,
    [handleSubmit] answers with the message asking for the name, whatever
    the rest of the form holds. *)
Theorem blank_name_rejected (invoice : Invoice) (m : ModalState) :
  forallb is_white_space (approverName m) = true
  <-> handleSubmit invoice m = (setError m msg_name, None).
Proof.
  rewrite <- trim_blank_iff. split.
  - intros Hn.
    destruct (handleSubmit_cases invoice m)
      as [[_ E]|[(? & _)|[(? & _)|[(? & _)|(? & _)]]]]; congruence.
  - intros H.
    destruct (handleSubmit_cases invoice m)
      as [[Hn _]|[(_ & _ & E)|[(_ & _ & _ & _ & E)|[(_ & _ & _ & _ & _ & E)
         |(_ & _ & _ & _ & _ & E)]]]];
      [exact Hn| | | |]; rewrite E in H; apply (f_equal fst) in H;
      apply (f_equal error) in H; vm_compute in H; discriminate H.
Qed.

Lemma handleSubmit_sets_error_only (invoice : Invoice) (m : ModalState) :
  fst (handleSubmit invoice m) = setError m (error (fst (handleSubmit invoice m))).
Proof.
  destruct (handleSubmit_cases invoice m)
    as [[_ E]|[(_ & _ & E)|[(_ & _ & _ & _ & E)|[(_ & _ & _ & _ & _ & E)
       |(_ & _ & _ & _ & _ & E)]]]];
    rewrite E; reflexivity.
Qed.

Lemma blank_name_rejected_witness :
  handleSubmit sampleProps (setApproverName filled_form (lit "  "))
  = (setError (setApproverName filled_form (lit "  ")) msg_name, None).
Proof.
  apply (proj1 (blank_name_rejected sampleProps (setApproverName filled_form (lit "  ")))).
  reflexivity.
Defined.

(** X3. [handleSubmit] changes nothing of the form but the error text:
    the reviewed set, name, email, note and confirmation are kept whether
    the attempt is accepted or rejected, so a rejected attempt loses no
    input and an accepted one leaves the form filled in. *)
Theorem handleSubmit_keeps_form (invoice : Invoice) (m : ModalState) :
  reviewedLines (fst (handleSubmit invoice m)) = reviewedLines m
  /\ approverName (fst (handleSubmit invoice m)) = approverName m
  /\ approverEmail (fst (handleSubmit invoice m)) = approverEmail m
  /\ approvalNote (fst (handleSubmit invoice m)) = approvalNote m
  /\ confirmReviewed (fst (handleSubmit invoice m)) = confirmReviewed m
  /\ (error (fst (handleSubmit invoice m)) = [] <-> is_Some (snd (handleSubmit invoice m))).
Proof.
  destruct (handleSubmit_cases invoice m)
    as [[_ E]|[(_ & _ & E)|[(_ & _ & _ & _ & E)|[(_ & _ & _ & _ & _ & E)
       |(_ & _ & _ & _ & _ & E)]]]];
    rewrite E; cbn [fst snd setError reviewedLines approverName approverEmail
                    approvalNote confirmReviewed error];
    repeat (split; [reflexivity|]);
    (split; [try discriminate; eauto | try (intros [? ?]; discriminate); reflexivity]).
Qed.

End ModalExtras.

(** ** Ticking lines *)

Section ToggleExtras.

Import ApprovalModal.

Lemma toggle_spec (m : ModalState) (lineId : jsstring) :
  (lineId ∈ reviewedLines (handleToggleLine m lineId) <-> lineId ∉ reviewedLines m)
  /\ (forall other, other <> lineId ->
        (other ∈ reviewedLines (handleToggleLine m lineId) <-> other ∈ reviewedLines m))
  /\ handleToggleLine (handleToggleLine m lineId) lineId = m.
Proof.
  destruct m as [S n e a c err].
  unfold handleToggleLine, setReviewedLines; cbn [reviewedLines approverName
    approverEmail approvalNote confirmReviewed error].
  split; [|split].
  - destruct (bool_decide_reflect (lineId ∈ S)) as [Hin|Hin].
    + rewrite elem_of_difference, elem_of_singleton. tauto.
    + rewrite elem_of_union, elem_of_singleton. tauto.
  - intros other Hne.
    destruct (bool_decide_reflect (lineId ∈ S)) as [Hin|Hin].
    + rewrite elem_of_difference, elem_of_singleton. tauto.
    + rewrite elem_of_union, elem_of_singleton. tauto.
  - f_equal. apply set_eq. intros x.
    destruct (bool_decide_reflect (lineId ∈ S)) as [Hin|Hin].
    + rewrite bool_decide_eq_false_2
        by (rewrite elem_of_difference, elem_of_singleton; tauto).
      rewrite elem_of_union, elem_of_difference, elem_of_singleton.
      destruct (decide (x = lineId)) as [->|Hne]; tauto.
    + rewrite bool_decide_eq_true_2
        by (rewrite elem_of_union, elem_of_singleton; tauto).
      rewrite elem_of_difference, elem_of_union, elem_of_singleton.
      destruct (decide (x = lineId)) as [->|Hne]; tauto.
Qed.

(** X4. [handleToggleLine] flips the membership of the clicked id and of
    no other id, touches no other field of the form, and undoes itself:
    clicking the same line twice gives back the form as it was. *)
Theorem handleToggleLine_flips_one (m : ModalState) (lineId : jsstring) :
  (lineId ∈ reviewedLines (handleToggleLine m lineId) <-> lineId ∉ reviewedLines m)
  /\ (forall other, other <> lineId ->
        (other ∈ reviewedLines (handleToggleLine m lineId) <-> other ∈ reviewedLines m))
  /\ approverName (handleToggleLine m lineId) = approverName m
  /\ approverEmail (handleToggleLine m lineId) = approverEmail m
  /\ approvalNote (handleToggleLine m lineId) = approvalNote m
  /\ confirmReviewed (handleToggleLine m lineId) = confirmReviewed m
  /\ error (handleToggleLine m lineId) = error m
  /\ handleToggleLine (handleToggleLine m lineId) lineId = m.
Proof.
  destruct (toggle_spec m lineId) as (Hflip & Hother & Htwice).
  split; [exact Hflip|]. split; [exact Hother|].
  repeat (split; [reflexivity|]). exact Htwice.
Qed.

Lemma toggle_fresh_ids (ids : list jsstring) (m : ModalState) :
  NoDup ids ->
  (forall i, i ∈ ids -> i ∉ reviewedLines m) ->
  reviewedLines (foldl handleToggleLine m ids) = reviewedLines m ∪ list_to_set ids.
Proof.
  revert m. induction ids as [|i ids IH]; intros m Hnd Hfresh; simpl.
  - by rewrite (right_id_L ∅ (∪)).
  - apply NoDup_cons in Hnd as [Hi Hnd].
    destruct (toggle_spec m i) as (Hflip & Hother & _).
    assert (Hi' : i ∈ reviewedLines (handleToggleLine m i))
      by (apply Hflip, Hfresh, list_elem_of_here).
    rewrite IH; [|exact Hnd|].
    + apply set_eq. intros x.
      rewrite !elem_of_union, elem_of_singleton.
      destruct (decide (x = i)) as [->|Hne]; [tauto|].
      rewrite (Hother x Hne). tauto.
    + intros j Hj. assert (Hne : j <> i) by (intros ->; done).
      rewrite (Hother j Hne). by apply Hfresh, list_elem_of_further.
Qed.

(** X5. Ticking every checkbox once, starting from a form in which none
    of the invoice's lines is ticked, marks all lines reviewed, provided
    the line ids are pairwise distinct. *)
Theorem ticking_every_line_reviews_all (invoice : Invoice) (m : ModalState) :
  NoDup (line_id <$> lines invoice) ->
  (forall line, line ∈ lines invoice -> line_id line ∉ reviewedLines m) ->
  allLinesReviewed invoice (foldl handleToggleLine m (line_id <$> lines invoice)) = true.
Proof.
  intros Hnd Hfresh. apply allLinesReviewed_true. intros line Hline.
  rewrite toggle_fresh_ids; [| exact Hnd |].
  - apply elem_of_union_r, elem_of_list_to_set, list_elem_of_fmap_2, Hline.
  - intros i Hi. apply list_elem_of_fmap in Hi as (l & -> & Hl). by apply Hfresh.
Qed.

Lemma ticking_every_line_reviews_all_witness :
  allLinesReviewed sampleProps
    (foldl handleToggleLine initialModal (line_id <$> lines sampleProps)) = true.
Proof.
  apply (ticking_every_line_reviews_all sampleProps initialModal).
  - apply (bool_decide_eq_true_1 _ (Decision0 := NoDup_dec _)). vm_compute. reflexivity.
  - intros line _. apply not_elem_of_empty.
Defined.

(** X6. With two lines sharing an id the same round of clicks leaves
    both unreviewed: the second click on the shared id removes it again.
    The reviewed set is keyed by [line_id], not by line. *)
Theorem shared_line_id_unticks (invoice : Invoice) (m : ModalState)
    (l1 l2 : InvoiceLine) :
  lines invoice = [l1; l2] ->
  line_id l1 = line_id l2 ->
  reviewedLines (foldl handleToggleLine m (line_id <$> lines invoice)) = reviewedLines m
  /\ (line_id l1 ∉ reviewedLines m ->
      allLinesReviewed invoice
        (foldl handleToggleLine m (line_id <$> lines invoice)) = false).
Proof.
  intros Hlines Hid. rewrite Hlines. cbn [fmap list_fmap foldl]. rewrite <- Hid.
  destruct (toggle_spec m (line_id l1)) as (_ & _ & ->).
  split; [reflexivity|]. intros Hnot.
  unfold allLinesReviewed. rewrite Hlines. cbn [forallb].
  rewrite bool_decide_eq_false_2 by exact Hnot. reflexivity.
Qed.

Lemma shared_line_id_unticks_witness :
  let twin := {| invoice_id := lit "inv_x";
                 lines := [of_page_line InvoiceDetail.line_l1;
                           of_page_line InvoiceDetail.line_l1];
                 total := 4000; aggregate_confidence := 0.93 |} in
  allLinesReviewed twin
    (foldl handleToggleLine initialModal (line_id <$> lines twin)) = false.
Proof.
  intros twin.
  apply (shared_line_id_unticks twin initialModal
           (of_page_line InvoiceDetail.line_l1) (of_page_line InvoiceDetail.line_l1));
    [reflexivity | reflexivity | apply not_elem_of_empty].
Defined.

(** X7. An invoice without lines has nothing to review: every line counts
    as reviewed whatever the set holds, so the submit button depends on
    the confirmation box alone. *)
Theorem empty_invoice_needs_no_review (invoice : Invoice) (m : ModalState) :
  lines invoice = [] ->
  allLinesReviewed invoice m = true
  /\ submitEnabled invoice m = confirmReviewed m.
Proof.
  intros Hl. unfold submitEnabled, allLinesReviewed. rewrite Hl. by split.
Qed.

Lemma empty_invoice_needs_no_review_witness :
  submitEnabled {| invoice_id := lit "inv_empty"; lines := [];
                   total := 0; aggregate_confidence := 1 |}
                (setConfirmReviewed initialModal true) = true.
Proof.
  destruct (empty_invoice_needs_no_review
              {| invoice_id := lit "inv_empty"; lines := [];
                 total := 0; aggregate_confidence := 1 |}
              (setConfirmReviewed initialModal true) eq_refl) as [_ ->].
  reflexivity.
Defined.

End ToggleExtras.

(** ** Invariants of the page and its modal *)

Section AppExtras.

Import InvoiceDetail App.

(** What each action does when it is available. *)
Lemma step_cases (s s' : AppState) (e : Event) :
  step s e = Some s' ->
  match e with
  | ClickApprove =>
      approveButtonShown (invoice (page s)) = true /\ s' = with_show s true
  | CloseModal =>
      showApprovalModal (page s) = true /\ s' = with_show s false
  | ToggleLine lineId =>
      showApprovalModal (page s) = true
      /\ lineId ∈ ApprovalModal.line_id <$> ApprovalModal.lines (modalInvoice s)
      /\ s' = with_modal s (ApprovalModal.handleToggleLine (modal s) lineId)
  | TypeName x =>
      showApprovalModal (page s) = true
      /\ s' = with_modal s (ApprovalModal.setApproverName (modal s) x)
  | TypeEmail x =>
      showApprovalModal (page s) = true
      /\ s' = with_modal s (ApprovalModal.setApproverEmail (modal s) x)
  | TypeNote x =>
      showApprovalModal (page s) = true
      /\ s' = with_modal s (ApprovalModal.setApprovalNote (modal s) x)
  | SetConfirm b =>
      showApprovalModal (page s) = true
      /\ s' = with_modal s (ApprovalModal.setConfirmReviewed (modal s) b)
  | ClickSubmit =>
      showApprovalModal (page s) = true
      /\ ApprovalModal.submitEnabled (modalInvoice s) (modal s) = true
      /\ modal s' = fst (ApprovalModal.handleSubmit (modalInvoice s) (modal s))
      /\ page s' = match snd (ApprovalModal.handleSubmit (modalInvoice s) (modal s)) with
                   | Some data => handleApprove (page s) data
                   | None => page s
                   end
  end.
Proof.
  destruct e; cbn [step]; intros H.
  - destruct (approveButtonShown _); [|discriminate]. by injection H as <-.
  - destruct (showApprovalModal (page s)); [|discriminate]. by injection H as <-.
  - destruct (showApprovalModal (page s)); [|discriminate]. cbn [andb] in H.
    destruct (bool_decide_reflect
                (lineId ∈ ApprovalModal.line_id <$> ApprovalModal.lines (modalInvoice s)));
      [|discriminate].
    by injection H as <-.
  - destruct (showApprovalModal (page s)); [|discriminate]. by injection H as <-.
  - destruct (showApprovalModal (page s)); [|discriminate]. by injection H as <-.
  - destruct (showApprovalModal (page s)); [|discriminate]. by injection H as <-.
  - destruct (showApprovalModal (page s)); [|discriminate]. by injection H as <-.
  - destruct (showApprovalModal (page s)); [|discriminate]. cbn [andb] in H.
    destruct (ApprovalModal.submitEnabled _ _); [|discriminate].
    destruct (ApprovalModal.handleSubmit _ _) as [m' [data|]];
      by injection H as <-.
Qed.

(** Once approved, nothing can be done on the page. *)
Lemma no_step_once_approved (s : AppState) :
  reachable s -> status (invoice (page s)) = lit "approved" ->
  forall e, step s e = None.
Proof.
  intros Hs Happ e.
  destruct (page_invariant s Hs) as [E|[E Hshow]].
  - rewrite E in Happ. discriminate Happ.
  - apply no_step_when_closed; [exact Hshow|]. by rewrite E.
Qed.

(** The lines the modal sees never change. *)
Lemma modal_lines_constant (s : AppState) :
  reachable s ->
  ApprovalModal.lines (modalInvoice s) = ApprovalModal.lines ApprovalModal.sampleProps.
Proof.
  intros Hs. unfold modalInvoice.
  destruct (page_invariant s Hs) as [->|[-> _]]; reflexivity.
Qed.

(** X8. The reviewed set only ever holds ids of the invoice's own lines:
    at every state the page can reach, each id in [reviewedLines] is the
    [line_id] of a line of the invoice. *)
Theorem reviewed_ids_belong_to_invoice (s : AppState) (lineId : jsstring) :
  reachable s ->
  lineId ∈ ApprovalModal.reviewedLines (modal s) ->
  lineId ∈ ApprovalModal.line_id <$> ApprovalModal.lines (modalInvoice s).
Proof.
  intros Hs. rewrite (modal_lines_constant s Hs). revert lineId.
  induction Hs as [|s e s' Hs IH Hstep]; intros lineId Hin.
  - by apply not_elem_of_empty in Hin.
  - pose proof (modal_lines_constant s Hs) as Hlines.
    apply step_cases in Hstep.
    destruct e; try (destruct Hstep as [_ ->]; by apply IH).
    + destruct Hstep as (_ & Hid & ->). cbn [modal with_modal] in Hin.
      rewrite Hlines in Hid.
      destruct (decide (lineId = lineId0)) as [->|Hne]; [exact Hid|].
      apply IH.
      by apply (proj1 (proj2 (toggle_spec (modal s) lineId0)) lineId Hne).
    + destruct Hstep as (_ & _ & Hm & _).
      rewrite Hm, handleSubmit_sets_error_only in Hin. by apply IH.
Qed.

Lemma reviewed_ids_belong_to_invoice_witness :
  lit "l2" ∈ ApprovalModal.line_id <$> ApprovalModal.lines (modalInvoice ready_to_submit).
Proof.
  apply (reviewed_ids_belong_to_invoice ready_to_submit (lit "l2")
           ready_to_submit_reachable).
  apply (bool_decide_eq_true_1
           (lit "l2" ∈ ApprovalModal.reviewedLines (modal ready_to_submit))).
  vm_compute. reflexivity.
Defined.

(** X9. Through the page, the messages about unreviewed lines and the
    unchecked confirmation box are never shown: the submit button is
    disabled in exactly the situations they are written for, so at every
    reachable state the error is empty or asks for the name or the email. *)
Theorem only_identity_errors_are_shown (s : AppState) :
  reachable s ->
  ApprovalModal.error (modal s) = []
  \/ ApprovalModal.error (modal s) = ApprovalModal.msg_name
  \/ ApprovalModal.error (modal s) = ApprovalModal.msg_email.
Proof.
  induction 1 as [|s e s' Hs IH Hstep]; [by left|].
  apply step_cases in Hstep.
  destruct e; try (destruct Hstep as [_ ->]; exact IH).
  - destruct Hstep as (_ & _ & ->). exact IH.
  - destruct Hstep as (_ & Hen & -> & _).
    unfold ApprovalModal.submitEnabled in Hen.
    apply andb_true_iff in Hen as [Hall Hc].
    destruct (handleSubmit_cases (modalInvoice s) (modal s))
      as [[_ E]|[(_ & _ & E)|[(_ & _ & _ & Hall' & _)|[(_ & _ & _ & _ & Hc' & _)
         |(_ & _ & _ & _ & _ & E)]]]];
      try congruence; rewrite E; cbn; tauto.
Qed.

Lemma only_identity_errors_are_shown_witness :
  exists s, run initial [ClickApprove; ToggleLine (lit "l1"); ToggleLine (lit "l2");
                         ToggleLine (lit "l3"); SetConfirm true; ClickSubmit] = Some s
            /\ ApprovalModal.error (modal s) = ApprovalModal.msg_name
            /\ status (invoice (page s)) = lit "draft".
Proof.
  eexists. split; [vm_compute; reflexivity|].
  split; [|reflexivity].
  match goal with |- ApprovalModal.error (modal ?st) = _ =>
    assert (Hr : reachable st)
      by (apply (reachable_run
                   [ClickApprove; ToggleLine (lit "l1"); ToggleLine (lit "l2");
                    ToggleLine (lit "l3"); SetConfirm true; ClickSubmit] initial);
          [apply reach_initial | vm_compute; reflexivity]);
    destruct (only_identity_errors_are_shown st Hr) as [H|[H|H]]
  end.
  - vm_compute in H. discriminate H.
  - exact H.
  - vm_compute in H. discriminate H.
Defined.

(** X10. An approved invoice was reviewed: at every reachable state whose
    invoice has status approved, every line of the invoice is in the
    reviewed set, the confirmation box is checked, the approver name and
    email are not blank, the email contains an at sign, and the modal is
    closed. *)
Theorem approved_invoice_was_reviewed (s : AppState) :
  reachable s ->
  status (invoice (page s)) = lit "approved" ->
  ApprovalModal.allLinesReviewed (modalInvoice s) (modal s) = true
  /\ ApprovalModal.confirmReviewed (modal s) = true
  /\ forallb is_white_space (ApprovalModal.approverName (modal s)) = false
  /\ forallb is_white_space (ApprovalModal.approverEmail (modal s)) = false
  /\ includes (ApprovalModal.approverEmail (modal s)) (lit "@") = true
  /\ showApprovalModal (page s) = false.
Proof.
  induction 1 as [|s e s' Hs IH Hstep]; [discriminate|].
  intros Happ.
  destruct (decide (status (invoice (page s)) = lit "approved")) as [Hold|Hold].
  - rewrite (no_step_once_approved s Hs Hold e) in Hstep. discriminate Hstep.
  - destruct (step_invoice _ _ _ Hstep)
      as [E|(-> & _ & (m' & data & Hsub) & E & Hclosed)]; [congruence|].
    apply step_cases in Hstep as (_ & _ & Hm & _).
    destruct (submit_preconditions _ _ _ _ Hsub) as (Hn & He & Hat & Hall & Hc).
    rewrite Hm, handleSubmit_sets_error_only.
    assert (Hlines : modalInvoice s' = modalInvoice s)
      by (unfold modalInvoice; rewrite E; reflexivity).
    rewrite Hlines.
    cbn [ApprovalModal.approverName ApprovalModal.approverEmail
         ApprovalModal.confirmReviewed ApprovalModal.setError].
    split; [exact Hall|]. split; [exact Hc|].
    split.
    { destruct (forallb is_white_space (ApprovalModal.approverName (modal s))) eqn:B;
        [|reflexivity].
      apply trim_blank_iff in B. congruence. }
    split.
    { destruct (forallb is_white_space (ApprovalModal.approverEmail (modal s))) eqn:B;
        [|reflexivity].
      apply trim_blank_iff in B. congruence. }
    split; [exact Hat|exact Hclosed].
Qed.

Lemma approved_invoice_was_reviewed_witness :
  exists s, run initial approval_session = Some s
            /\ status (invoice (page s)) = lit "approved"
            /\ ApprovalModal.allLinesReviewed (modalInvoice s) (modal s) = true
            /\ showApprovalModal (page s) = false.
Proof.
  eexists. split; [vm_compute; reflexivity|].
  split; [reflexivity|].
  match goal with |- ApprovalModal.allLinesReviewed (modalInvoice ?st) _ = _ /\ _ =>
    assert (Hr : reachable st)
      by (apply (reachable_run approval_session initial);
          [apply reach_initial | vm_compute; reflexivity]);
    destruct (approved_invoice_was_reviewed st Hr eq_refl) as (Hall & _ & _ & _ & _ & Hcl)
  end.
  split; [exact Hall|exact Hcl].
Defined.

(** X11. Whatever the page state and payload, after [handleApprove] the
    modal is closed, the Approve button is gone and the Push to ERP button
    is shown; the two buttons are never shown together for any invoice;
    and approving twice is the same as approving once. *)
Theorem handleApprove_swaps_buttons {A B : Type} (p : PageState) (d : A) (d' : B) :
  showApprovalModal (handleApprove p d) = false
  /\ approveButtonShown (invoice (handleApprove p d)) = false
  /\ pushButtonShown (invoice (handleApprove p d)) = true
  /\ approveButtonShown (invoice p) && pushButtonShown (invoice p) = false
  /\ handleApprove (handleApprove p d) d' = handleApprove p d.
Proof.
  split; [reflexivity|]. split; [reflexivity|]. split; [reflexivity|].
  split; [|reflexivity].
  unfold approveButtonShown, pushButtonShown, str_eqb.
  destruct (bool_decide_reflect (status (invoice p) = lit "draft")) as [->|]; reflexivity.
Qed.

End AppExtras.

(** ** Confidence colours *)

Section ColourExtras.

Open Scope Q_scope.

(** X12. The invoice page and the queue put every score in the same
    tier, with the bounds on the upper side: green from 0.9 on, yellow
    from 0.8 up to but excluding 0.9, red below 0.8; the page's badge is
    the queue's colour with a border class appended. *)
Theorem confidence_tiers_agree (c : Q) :
  (0.9 <= c ->
     InvoiceDetail.getConfidenceBadge c = lit "bg-green-100 text-green-800 border-green-200"
     /\ InvoiceQueue.getConfidenceColor c = lit "bg-green-100 text-green-800")
  /\ (0.8 <= c -> c < 0.9 ->
     InvoiceDetail.getConfidenceBadge c = lit "bg-yellow-100 text-yellow-800 border-yellow-200"
     /\ InvoiceQueue.getConfidenceColor c = lit "bg-yellow-100 text-yellow-800")
  /\ (c < 0.8 ->
     InvoiceDetail.getConfidenceBadge c = lit "bg-red-100 text-red-800 border-red-200"
     /\ InvoiceQueue.getConfidenceColor c = lit "bg-red-100 text-red-800")
  /\ startsWith (InvoiceDetail.getConfidenceBadge c) (InvoiceQueue.getConfidenceColor c) = true.
Proof.
  unfold InvoiceDetail.getConfidenceBadge, InvoiceQueue.getConfidenceColor.
  destruct (Qle_bool 0.9 c) eqn:H9.
  - apply Qle_bool_iff in H9.
    split; [done|]. split; [intros _ Hlt; by apply Qlt_not_le in Hlt|].
    split; [|reflexivity].
    intros Hlt. exfalso. apply (Qlt_not_le _ _ Hlt).
    eapply Qle_trans; [|exact H9]. discriminate.
  - assert (Hlt9 : c < 0.9).
    { apply Qnot_le_lt. intros Hle. apply Qle_bool_iff in Hle. congruence. }
    destruct (Qle_bool 0.8 c) eqn:H8.
    + apply Qle_bool_iff in H8.
      split; [intros Hle; by apply Qlt_not_le in Hlt9|].
      split; [done|]. split; [|reflexivity].
      intros Hlt. by apply Qlt_not_le in Hlt.
    + assert (Hlt8 : c < 0.8).
      { apply Qnot_le_lt. intros Hle. apply Qle_bool_iff in Hle. congruence. }
      split; [intros Hle; by apply Qlt_not_le in Hlt9|].
      split; [intros Hle; by apply Qlt_not_le in Hlt8|].
      split; [done|reflexivity].
Qed.

Lemma confidence_tiers_agree_witness :
  InvoiceDetail.getConfidenceBadge 0.8 = lit "bg-yellow-100 text-yellow-800 border-yellow-200"
  /\ InvoiceQueue.getConfidenceColor 0.9 = lit "bg-green-100 text-green-800"
  /\ InvoiceQueue.getConfidenceColor 0.72 = lit "bg-red-100 text-red-800".
Proof.
  split; [|split].
  - apply (proj1 (proj2 (confidence_tiers_agree 0.8))); [discriminate|reflexivity].
  - apply (proj1 (confidence_tiers_agree 0.9)). discriminate.
  - apply (proj1 (proj2 (proj2 (confidence_tiers_agree 0.72)))). reflexivity.
Defined.

End ColourExtras.

(** ** The sidebar *)

Section SidebarExtras.

Import Sidebar.

(** Two prefixes of one string are prefixes of each other, one way or the
    other. *)
Lemma startsWith_comparable (p a b : jsstring) :
  startsWith p a = true -> startsWith p b = true ->
  startsWith a b = true \/ startsWith b a = true.
Proof.
  revert p b. induction a as [|x a IH]; intros p b Ha Hb.
  - right. reflexivity.
  - destruct b as [|y b]; [left; reflexivity|].
    destruct p as [|z p]; simpl in Ha, Hb; [discriminate|].
    apply andb_true_iff in Ha as [Hx Ha]. apply andb_true_iff in Hb as [Hy Hb].
    apply N.eqb_eq in Hx, Hy. subst x y. simpl. rewrite N.eqb_refl. simpl.
    exact (IH p b Ha Hb).
Qed.

Lemma startsWith_refl (s : jsstring) : startsWith s s = true.
Proof. rewrite <- (app_nil_r s) at 1. apply startsWith_app. Qed.

Lemma isActive_startsWith (pathname : jsstring) (item : NavItem) :
  isActive pathname item = true -> startsWith pathname (href item) = true.
Proof.
  unfold isActive, str_eqb. intros H. apply orb_true_iff in H as [H|H].
  - apply bool_decide_eq_true in H. subst pathname. apply startsWith_refl.
  - by apply andb_true_iff in H as [_ H].
Qed.

Lemma isActive_root (pathname : jsstring) (item : NavItem) :
  isActive pathname item = true -> href item = lit "/" -> pathname = lit "/".
Proof.
  unfold isActive, str_eqb. intros H Hroot. rewrite Hroot in H.
  apply orb_true_iff in H as [H|H].
  - by apply bool_decide_eq_true in H.
  - rewrite bool_decide_eq_true_2 in H by reflexivity. discriminate H.
Qed.

Lemma active_item_unique (pathname : jsstring) (i j : NavItem) :
  i ∈ navigation -> j ∈ navigation ->
  isActive pathname i = true -> isActive pathname j = true -> i = j.
Proof.
  intros Hi Hj Hai Haj.
  apply list_elem_of_In in Hi, Hj. simpl in Hi, Hj.
  destruct Hi as [<-|[<-|[<-|[<-|[<-|[]]]]]];
    destruct Hj as [<-|[<-|[<-|[<-|[<-|[]]]]]];
    try reflexivity; exfalso;
    first
      [ pose proof (isActive_root _ _ Hai eq_refl) as ->;
        vm_compute in Haj; discriminate Haj
      | pose proof (isActive_root _ _ Haj eq_refl) as ->;
        vm_compute in Hai; discriminate Hai
      | destruct (startsWith_comparable _ _ _
                    (isActive_startsWith _ _ Hai) (isActive_startsWith _ _ Haj))
          as [H|H]; vm_compute in H; discriminate H ].
Qed.

Lemma navigation_NoDup : NoDup navigation.
Proof.
  apply (NoDup_fmap_1 href).
  apply (bool_decide_eq_true_1 _ (Decision0 := NoDup_dec _)).
  vm_compute. reflexivity.
Qed.

Lemma activeItems_short (pathname : jsstring) :
  activeItems pathname = []
  \/ exists item, activeItems pathname = [item].
Proof.
  assert (Hnd : NoDup (activeItems pathname)).
  { unfold activeItems. apply NoDup_ListNoDup, List.NoDup_filter, NoDup_ListNoDup.
    apply navigation_NoDup. }
  assert (Hall : forall x, x ∈ activeItems pathname ->
                           x ∈ navigation /\ isActive pathname x = true).
  { intros x Hx. apply list_elem_of_In, filter_In in Hx as [Hx Hact].
    split; [by apply list_elem_of_In|exact Hact]. }
  destruct (activeItems pathname) as [|a [|b r]]; [by left|right; by eexists|].
  exfalso.
  destruct (Hall a) as [Ha Haa]; [apply list_elem_of_here|].
  destruct (Hall b) as [Hb Hab]; [apply list_elem_of_further, list_elem_of_here|].
  pose proof (active_item_unique pathname a b Ha Hb Haa Hab) as ->.
  apply NoDup_cons in Hnd as [Hnotin _]. apply Hnotin, list_elem_of_here.
Qed.

(** X13. Whatever the pathname, at most one entry of the main navigation
    is highlighted. *)
Theorem at_most_one_nav_item_active (pathname : jsstring) :
  (length (activeItems pathname) <= 1)%nat.
Proof.
  destruct (activeItems_short pathname) as [->|[item ->]]; simpl; lia.
Qed.

(** X14. A section stays highlighted on all its sub-routes, and the match
    is by prefix of the string, not by path segment: for every entry
    other than the Dashboard and every suffix, the pathname made of the
    entry's href and the suffix highlights that entry and no other; the
    Dashboard is highlighted on the pathname "/" only. *)
Theorem section_active_on_subroutes (item : NavItem) (rest pathname : jsstring) :
  item ∈ navigation ->
  (href item <> lit "/" -> activeItems (href item ++ rest) = [item])
  /\ (href item = lit "/" -> (isActive pathname item = true <-> pathname = lit "/")).
Proof.
  intros Hitem. split.
  - intros Hroot.
    assert (Hact : isActive (href item ++ rest) item = true).
    { unfold isActive, str_eqb. rewrite (bool_decide_eq_false_2 _ Hroot).
      rewrite startsWith_app. apply orb_true_r. }
    assert (Hin : item ∈ activeItems (href item ++ rest)).
    { apply list_elem_of_In, filter_In. split; [by apply list_elem_of_In|exact Hact]. }
    destruct (activeItems_short (href item ++ rest)) as [E|[x E]]; rewrite E in Hin.
    + by apply not_elem_of_nil in Hin.
    + apply list_elem_of_singleton in Hin. by subst x.
  - intros Hroot. split.
    + intros H. by apply (isActive_root _ _ H).
    + intros ->. unfold isActive, str_eqb. rewrite Hroot.
      rewrite bool_decide_eq_true_2 by reflexivity. reflexivity.
Qed.

Lemma section_active_on_subroutes_witness :
  (name <$> activeItems (lit "/invoices/inv_20260118_001")) = [lit "Invoice Queue"]
  /\ (name <$> activeItems (lit "/auditors")) = [lit "Audit Timeline"].
Proof.
  split.
  - assert (Hin : {| name := lit "Invoice Queue"; href := lit "/invoices" |} ∈ navigation)
      by (apply list_elem_of_In; simpl; tauto).
    destruct (section_active_on_subroutes _ (lit "/inv_20260118_001") [] Hin) as [H _].
    change (lit "/invoices/inv_20260118_001")
      with (href {| name := lit "Invoice Queue"; href := lit "/invoices" |}
            ++ lit "/inv_20260118_001").
    rewrite H; [reflexivity|discriminate].
  - assert (Hin : {| name := lit "Audit Timeline"; href := lit "/audit" |} ∈ navigation)
      by (apply list_elem_of_In; simpl; tauto).
    destruct (section_active_on_subroutes _ (lit "ors") [] Hin) as [H _].
    change (lit "/auditors")
      with (href {| name := lit "Audit Timeline"; href := lit "/audit" |} ++ lit "ors").
    rewrite H; [reflexivity|discriminate].
Defined.

End SidebarExtras.

(** ** The invoice queue's filter *)

Section QueueExtras.

Import Invoices InvoiceQueue.

Variable toLowerCase : jsstring -> jsstring.

Lemma includes_empty (s : jsstring) : includes s [] = true.
Proof. destruct s; reflexivity. Qed.

Lemma includes_trans (s q q' : jsstring) :
  includes s q = true -> includes q q' = true -> includes s q' = true.
Proof.
  rewrite !includes_spec. intros (a & b & ->) (c & d & ->).
  exists (a ++ c), (d ++ b). by rewrite <- !app_assoc.
Qed.

(** X15. With an empty search box and the dropdown on All Statuses (a
    filter that is [null] or the empty string) the queue lists every
    invoice, in order.  The empty string must lower-case to itself, as it
    does in JavaScript. *)
Theorem empty_query_lists_every_invoice
    (invs : list InvoiceSummary) (statusFilter : option jsstring) :
  toLowerCase [] = [] ->
  (forall f, statusFilter = Some f -> f = []) ->
  filterInvoices toLowerCase invs [] statusFilter = invs.
Proof.
  intros Hlow Hall. unfold filterInvoices.
  induction invs as [|inv invs IH]; simpl; [reflexivity|].
  assert (Hhit : matchesSearch toLowerCase [] inv = true)
    by (unfold matchesSearch; by rewrite Hlow, !includes_empty).
  assert (Hst : matchesStatus statusFilter inv = true).
  { destruct statusFilter as [f|]; [|reflexivity].
    by rewrite (Hall f eq_refl). }
  by rewrite Hhit, Hst, IH.
Qed.

(** X16. Choosing a status keeps, of the invoices the search alone
    finds, exactly those with that status: a non-empty status filter
    gives the unfiltered result filtered by status, and every invoice
    listed has the chosen status. *)
Theorem status_filter_keeps_matching_status
    (invs : list InvoiceSummary) (searchQuery st : jsstring) :
  st <> [] ->
  filterInvoices toLowerCase invs searchQuery (Some st)
  = List.filter (fun inv => str_eqb (status inv) st)
                (filterInvoices toLowerCase invs searchQuery None)
  /\ Forall (fun inv => status inv = st)
            (filterInvoices toLowerCase invs searchQuery (Some st)).
Proof.
  intros Hst.
  assert (Htr : truthy st = true) by (destruct st; [done|reflexivity]).
  unfold filterInvoices. split.
  - induction invs as [|inv invs IH]; [reflexivity|].
    cbn [List.filter]. rewrite IH.
    assert (Hm : matchesStatus (Some st) inv = str_eqb (status inv) st)
      by (unfold matchesStatus; by rewrite Htr).
    rewrite Hm. cbn [matchesStatus]. rewrite andb_true_r.
    destruct (matchesSearch toLowerCase searchQuery inv); cbn [andb List.filter];
      reflexivity.
  - apply Forall_forall. intros inv Hin.
    apply list_elem_of_In, filter_In in Hin as [_ Hin].
    apply andb_true_iff in Hin as [_ Hin]. simpl in Hin. rewrite Htr in Hin.
    by apply bool_decide_eq_true in Hin.
Qed.

(** X17. Typing more never adds rows: if the lower-cased query [q'] occurs
    inside the lower-cased query [q], every invoice listed for [q] is
    listed for [q'] under the same status filter. *)
Theorem longer_query_narrows
    (invs : list InvoiceSummary) (q q' : jsstring) (statusFilter : option jsstring)
    (inv : InvoiceSummary) :
  includes (toLowerCase q) (toLowerCase q') = true ->
  inv ∈ filterInvoices toLowerCase invs q statusFilter ->
  inv ∈ filterInvoices toLowerCase invs q' statusFilter.
Proof.
  intros Hsub Hin. unfold filterInvoices in *.
  apply list_elem_of_In, filter_In in Hin as [Hmem Hin].
  apply list_elem_of_In, filter_In. split; [exact Hmem|].
  apply andb_true_iff in Hin as [Hs Hst]. rewrite Hst, andb_true_r.
  unfold matchesSearch in *. apply orb_true_iff in Hs as [Hs|Hs].
  - by rewrite (includes_trans _ _ _ Hs Hsub).
  - rewrite (includes_trans _ _ _ Hs Hsub). apply orb_true_r.
Qed.

End QueueExtras.

Section QueueWitnesses.

Import Invoices InvoiceQueue.

Lemma empty_query_lists_every_invoice_witness :
  filteredInvoices toLowerCase_ascii [] (onStatusFilterChange []) = invoices.
Proof.
  apply (empty_query_lists_every_invoice toLowerCase_ascii invoices
           (onStatusFilterChange [])).
  - reflexivity.
  - intros f Hf. discriminate Hf.
Defined.

Lemma status_filter_keeps_matching_status_witness :
  id <$> filteredInvoices toLowerCase_ascii (lit "CONSULT") (Some (lit "exception"))
  = [lit "inv_20260117_002"]
  /\ Forall (fun inv => status inv = lit "exception")
            (filteredInvoices toLowerCase_ascii (lit "CONSULT") (Some (lit "exception"))).
Proof.
  destruct (status_filter_keeps_matching_status toLowerCase_ascii invoices
              (lit "CONSULT") (lit "exception")) as [_ Hall]; [discriminate|].
  split; [vm_compute; reflexivity|exact Hall].
Defined.

Lemma longer_query_narrows_witness :
  exists inv, inv ∈ filteredInvoices toLowerCase_ascii (lit "acme") None
              /\ id inv = lit "inv_20260118_001".
Proof.
  eexists. split.
  - apply (longer_query_narrows toLowerCase_ascii invoices (lit "MSA-ACME") (lit "acme") None).
    + vm_compute. reflexivity.
    + apply list_elem_of_here.
  - reflexivity.
Defined.

End QueueWitnesses.

(** ** The exception centre's filter *)

Section ExceptionCentreExtras.

Import Exceptions ExceptionCentre.

(** X18. For any list of exceptions: the All filter shows the whole list;
    the count on the Pending tab and in the banner is the number of cards
    the Pending filter shows; the banner is drawn exactly when some
    exception is pending, which is exactly when the Pending filter is not
    empty; and the Pending and Resolved filters together never show more
    cards than All.  The page's [filteredExceptions] and [pendingCount]
    are these functions at the sample list. *)
Theorem pending_count_matches_filter (excs : list Exception) :
  filterExceptions excs all = excs
  /\ countPending excs = length (filterExceptions excs pending)
  /\ (bannerShown excs = true <-> exists e, e ∈ excs /\ status e = lit "pending")
  /\ (bannerShown excs = false <-> filterExceptions excs pending = [])
  /\ (length (filterExceptions excs pending) + length (filterExceptions excs resolved)
      <= length excs)%nat
  /\ (forall f, filteredExceptions f = filterExceptions exceptions f)
  /\ pendingCount = countPending exceptions.
Proof.
  split.
  { unfold filterExceptions. induction excs as [|e excs IH]; simpl; [done|].
    by rewrite IH. }
  split; [reflexivity|].
  split.
  { unfold bannerShown, countPending. rewrite Nat.ltb_lt. split.
    - intros Hlen.
      destruct (List.filter _ excs) as [|e r] eqn:E; [simpl in Hlen; lia|].
      assert (Hin : In e (List.filter (fun e => str_eqb (status e) (lit "pending")) excs))
        by (rewrite E; by left).
      apply filter_In in Hin as [Hin Hst]. exists e.
      split; [by apply list_elem_of_In|by apply bool_decide_eq_true in Hst].
    - intros (e & Hin & Hst).
      assert (Hf : In e (List.filter (fun e => str_eqb (status e) (lit "pending")) excs)).
      { apply filter_In. split; [by apply list_elem_of_In|].
        by apply bool_decide_eq_true. }
      destruct (List.filter _ excs); [destruct Hf|simpl; lia]. }
  split.
  { unfold bannerShown, countPending, filterExceptions, shown.
    rewrite Nat.ltb_ge.
    destruct (List.filter _ excs); simpl; split; (done || lia). }
  split; [|split; [by intros []|reflexivity]].
  unfold filterExceptions.
  induction excs as [|e excs IH]; [simpl; lia|].
  cbn [List.filter shown].
  destruct (str_eqb (status e) (lit "pending")) eqn:Hp.
  - apply bool_decide_eq_true in Hp.
    assert (Hr : str_eqb (status e) (lit "resolved") = false)
      by (rewrite Hp; reflexivity).
    rewrite Hr. cbn [length]. lia.
  - destruct (str_eqb (status e) (lit "resolved")); cbn [length]; lia.
Qed.

End ExceptionCentreExtras.
